(** * cacao-pandas-ui: the table viewer and its command line, embedded in Rocq

    The development follows the two source modules of the package:

    - [cacao_pandas_ui/viewer.py]: [PandasTablePage] (its constructor,
      [_prepare_table_data], [_create_toolbar], [render], the table builders)
      and [preview_dataframe] with its process-wide guard;
    - [cacao_pandas_ui/cli.py]: [load_dataframe_from_file] and [main].

    Python objects are modelled as follows.  A scalar is a [pyval] that keeps
    its runtime class, because the conversion loop of [_prepare_table_data]
    branches on [isinstance].  A [dict] is an association list in insertion
    order, with Python's rule that assigning to an existing key keeps the
    key's position.  Functions that can raise return a [result]; functions
    that allocate or print thread a [world].  pandas and cacao are libraries
    the package calls: pandas' frames are modelled by the operations the
    package uses ([copy], [fillna], [iterrows], [df[col].dtype], [shape],
    [empty], [pd.isna]), cacao by the behaviour of its [App] (a
    [framework]) and of its optional table components.

    The libraries are those of CPython 3.11 on Linux (the C library prints
    [%Y] without padding) with pandas 2.2 and numpy 2.2.  A frame has string
    labels and columns of the numpy dtypes object, int64, float64, bool
    and datetime64[ns], or categorical columns with string categories.  A
    column holds its elements as the column stores them; [iterrows] boxes
    them as pandas does when it builds a row.  A cell of an object column
    is any Python object, a list or an array included.  Not represented:
    the other extension dtypes (nullable integers, floats and booleans,
    the string dtype, time zones), the dtype inference [fillna] applies
    in pandas 2 to an object column that holds nothing but numbers,
    booleans or datetimes, and file paths that are not POSIX paths over
    ASCII.  The statements about frames say which frames they are about,
    and those about converted values speak of the values the loop reads
    from the rows of the frame [fillna] returned. *)

From Stdlib Require Import ZArith String Ascii List Lia.
From stdpp Require Import base option list strings gmap pretty.

Open Scope string_scope.
Set Warnings "-register-all".

(* ================================================================== *)
(** * Python: exceptions, scalars, dictionaries *)
(* ================================================================== *)

Module Py.

(** The exception classes the package meets.  [OtherError] stands for any
    further subclass of [Exception] (what a pandas reader raises:
    [FileNotFoundError], [ParserError], ...). *)
Inductive exc_class :=
| BaseException
| SystemExit
| KeyboardInterrupt
| GeneratorExit
| Exception
| ValueError
| TypeError
| AttributeError
| KeyError
| ImportError
| OtherError (name : string).

(** [except Exception] catches exactly the classes derived from
    [Exception]; the other four derive from [BaseException] only. *)
Definition is_Exception (c : exc_class) : bool :=
  match c with
  | BaseException | SystemExit | KeyboardInterrupt | GeneratorExit => false
  | _ => true
  end.

(** An exception object: its class and [str(e)]. *)
Record exn := { exc_type : exc_class; exc_str : string }.

Inductive result (A : Type) :=
| Ok (a : A)
| Raise (e : exn).
Arguments Ok {A} a.
Arguments Raise {A} e.

(** Sequencing: an exception ends the computation.  With these instances
    [x ← r; k] reads as two statements in a row. *)
#[global] Instance result_ret : MRet result := fun A a => Ok a.

#[global] Instance result_bind : MBind result := fun A B k r =>
  match r with
  | Ok a => k a
  | Raise e => Raise e
  end.

(** A float is kept by the text [repr] prints for it, which identifies a
    finite float; [nan] is the one value [pd.isna] reports. *)
Inductive pyfloat :=
| nan
| fnum (repr : string).

(** The integer a double holds after [float(z)]: [z] rounded to 53
    significant bits, ties to even. *)
Definition double_of_int (z : Z) : Z :=
  let a := Z.abs z in
  let s := (Z.log2 a + 1 - 53)%Z in
  if (s <=? 0)%Z then z
  else
    let q := (a / 2 ^ s)%Z in
    let r := (a mod 2 ^ s)%Z in
    let half := (2 ^ (s - 1))%Z in
    let q' := if (half <? r)%Z || ((r =? half)%Z && Z.odd q)
              then (q + 1)%Z else q in
    (Z.sgn z * (q' * 2 ^ s))%Z.

(** Whether the decimal [c] reads back as the double of value [a] (both
    positive integers): [c] lies within half a gap of [a], the ends
    included when the mantissa is even. *)
Definition reads_back (a c : Z) : bool :=
  let s := (Z.log2 a + 1 - 53)%Z in
  if (s <=? 0)%Z then (c =? a)%Z
  else
    let m := (a / 2 ^ s)%Z in
    let up := (2 ^ s)%Z in
    let down := if (m =? 2 ^ 52)%Z then (2 ^ (s - 1))%Z else (2 ^ s)%Z in
    if Z.even m
    then ((2 * a - down <=? 2 * c) && (2 * c <=? 2 * a + up))%Z
    else ((2 * a - down <? 2 * c) && (2 * c <? 2 * a + up))%Z.

Fixpoint strip_zeros_rev (s : list ascii) : list ascii :=
  match s with
  | "0"%char :: rest => strip_zeros_rev rest
  | _ => s
  end.

(** [s.rstrip("0")]. *)
Definition strip_zeros (s : string) : string :=
  string_of_list_ascii (rev (strip_zeros_rev (rev (list_ascii_of_string s)))).

(** The shortest decimal that reads back as [a], the closest one when
    there are two: tried with one significant digit, then two, ... *)
Fixpoint shortest (fuel : nat) (p : Z) (a : Z) : Z :=
  match fuel with
  | O => a
  | S fuel' =>
      let lo := (a / p * p)%Z in
      let hi := (lo + p)%Z in
      let lo_ok := reads_back a lo in
      let hi_ok := reads_back a hi in
      if lo_ok && hi_ok then (if (a - lo <=? hi - a)%Z then lo else hi)
      else if lo_ok then lo
      else if hi_ok then hi
      else shortest fuel' (p / 10)%Z a
  end.

Definition decimal_digits (a : Z) : Z := Z.of_nat (String.length (pretty a)).

(** [repr] of the float whose value is the integer [a]: the digits and
    [.0] below 1e16, the shortest digits in exponent notation from there. *)
Definition repr_integral (a : Z) : string :=
  let b := Z.abs a in
  let sign := if (a <? 0)%Z then "-" else "" in
  if (b <? 10 ^ 16)%Z then sign +:+ pretty b +:+ ".0"
  else
    let c := shortest 20 (10 ^ (decimal_digits b - 1))%Z b in
    let ds := strip_zeros (pretty c) in
    sign +:+
    match ds with
    | String d "" => String d ""
    | String d rest => String d ("." +:+ rest)
    | "" => ""
    end +:+ "e+" +:+ pretty (decimal_digits c - 1)%Z.

(** [float(z)], the cast numpy applies to an [int64]. *)
Definition float_of_int (z : Z) : pyfloat :=
  fnum (repr_integral (double_of_int z)).

(** The fields of [datetime.datetime]. *)
Record datetime := {
  year : Z; month : Z; day : Z;
  hour : Z; minute : Z; second : Z;
  microsecond : Z
}.

(** Python objects, by runtime class.  A list or an array is kept by what
    the package can observe of it: for each element whether [pd.isna]
    reports it ([pd.isna] is elementwise there) and the text [str] prints.
    [PyObject] is an object of any further class, one that [pd.isna] does
    not report, kept by the name of its class and the text [str] prints. *)
Inductive pyval :=
| PyNone
| PyFloat (f : pyfloat)
| NpFloat64 (f : pyfloat)
| PyInt (z : Z)
| PyBool (b : bool)
| NpInt64 (z : Z)
| NpBool (b : bool)
| PyStr (s : string)
| PyDatetime (t : datetime)
| PdTimestamp (t : datetime)
| PdNaT
| PdNA
| PyList (nulls : list bool) (text : string)
| PyObject (cls : string) (text : string).

Inductive pyclass :=
| c_NoneType
| c_float
| c_np_float64
| c_int
| c_bool
| c_np_int64
| c_np_bool
| c_str
| c_datetime
| c_Timestamp
| c_NaTType
| c_NAType
| c_other (name : string).

#[global] Instance pyclass_eq_dec : EqDecision pyclass.
Proof. solve_decision. Defined.

Definition type_of (v : pyval) : pyclass :=
  match v with
  | PyNone => c_NoneType
  | PyFloat _ => c_float
  | NpFloat64 _ => c_np_float64
  | PyInt _ => c_int
  | PyBool _ => c_bool
  | NpInt64 _ => c_np_int64
  | NpBool _ => c_np_bool
  | PyStr _ => c_str
  | PyDatetime _ => c_datetime
  | PdTimestamp _ => c_Timestamp
  | PdNaT => c_NaTType
  | PdNA => c_NAType
  | PyList _ _ => c_other "list"
  | PyObject cls _ => c_other cls
  end.

(** Direct base classes (below [object]): [bool] derives from [int],
    [numpy.float64] from [float], [pandas.Timestamp] and the class of
    [pandas.NaT] from [datetime].  [numpy.int64] and [numpy.bool_] derive
    from neither [int] nor [float]. *)
Definition bases (c : pyclass) : list pyclass :=
  match c with
  | c_bool => [c_int]
  | c_np_float64 => [c_float]
  | c_Timestamp => [c_datetime]
  | c_NaTType => [c_datetime]
  | _ => []
  end.

Definition issubclass (c d : pyclass) : bool :=
  bool_decide (c = d) || existsb (fun b => bool_decide (b = d)) (bases c).

(** [isinstance(v, (d1, ..., dn))]. *)
Definition isinstance (v : pyval) (classes : list pyclass) : bool :=
  existsb (issubclass (type_of v)) classes.

(** The character of the last decimal digit of [n]. *)
Definition digit (n : Z) : ascii := ascii_of_nat (Z.to_nat (48 + n mod 10)).

(** The last [w] decimal digits of [n]. *)
Fixpoint fixed_width (w : nat) (n : Z) : string :=
  match w with
  | 0 => ""
  | S w' => fixed_width w' (n / 10) +:+ String (digit n) ""
  end.

(** C's [%0wd]: at least [w] digits, zero padded. *)
Definition zfill (w : nat) (n : Z) : string :=
  if ((0 <=? n) && (n <? 10 ^ Z.of_nat w))%Z then fixed_width w n
  else pretty n.

(** One directive of [strftime]; a directive the package does not use is
    left as written.  The C library prints [%Y] as the year's digits,
    without padding: 999 for the year 999. *)
Definition directive (c : ascii) (t : datetime) : string :=
  match c with
  | "Y"%char => pretty (year t)
  | "m"%char => zfill 2 (month t)
  | "d"%char => zfill 2 (day t)
  | "H"%char => zfill 2 (hour t)
  | "M"%char => zfill 2 (minute t)
  | "S"%char => zfill 2 (second t)
  | "f"%char => zfill 6 (microsecond t)
  | "%"%char => "%"
  | _ => String "%" (String c "")
  end.

(** [t.strftime(fmt)]. *)
Fixpoint strftime (fmt : string) (t : datetime) : string :=
  match fmt with
  | "" => ""
  | String "%" (String c rest) => directive c t +:+ strftime rest t
  | String c rest => String c (strftime rest t)
  end.

(** [str(t)] for a datetime: ISO format with a space, the year on four
    digits, the microseconds only when they are not zero. *)
Definition datetime_str (t : datetime) : string :=
  zfill 4 (year t) +:+ "-" +:+ zfill 2 (month t) +:+ "-" +:+ zfill 2 (day t)
  +:+ " " +:+ zfill 2 (hour t) +:+ ":" +:+ zfill 2 (minute t)
  +:+ ":" +:+ zfill 2 (second t) +:+
  (if (microsecond t =? 0)%Z then "" else "." +:+ zfill 6 (microsecond t)).

Definition float_str (f : pyfloat) : string :=
  match f with
  | nan => "nan"
  | fnum r => r
  end.

Definition bool_str (b : bool) : string := if b then "True" else "False".

(** [str(v)]. *)
Definition py_str (v : pyval) : string :=
  match v with
  | PyNone => "None"
  | PyFloat f | NpFloat64 f => float_str f
  | PyInt z | NpInt64 z => pretty z
  | PyBool b | NpBool b => bool_str b
  | PyStr s => s
  | PyDatetime t | PdTimestamp t => datetime_str t
  | PdNaT => "NaT"
  | PdNA => "<NA>"
  | PyList _ text => text
  | PyObject _ text => text
  end.

(** A [dict] with string keys, in insertion order. *)
Definition dict (V : Type) := list (string * V).

Definition keys {V} (d : dict V) : list string := fst <$> d.

Fixpoint getitem {V} (d : dict V) (k : string) : option V :=
  match d with
  | [] => None
  | (k', v) :: d' => if decide (k' = k) then Some v else getitem d' k
  end.

(** [d[k] = v]: an existing key keeps its place and takes the new value,
    a new key goes last. *)
Fixpoint setitem {V} (d : dict V) (k : string) (v : V) : dict V :=
  match d with
  | [] => [(k, v)]
  | (k', v') :: d' =>
      if decide (k' = k) then (k, v) :: d' else (k', v') :: setitem d' k v
  end.

(** [d.get(k, default)]. *)
Definition get {V} (d : dict V) (k : string) (default : V) : V :=
  match getitem d k with
  | Some v => v
  | None => default
  end.

End Py.

(* ================================================================== *)
(** * pandas: the frame operations the package calls *)
(* ================================================================== *)

Module Pandas.
Import Py.

(** The dtypes of the columns represented: the numpy dtypes pandas gives
    to text and mixed columns, to integer, real, boolean and timestamp
    columns, and the categorical dtype with its categories. *)
Inductive Dtype :=
| object_
| int64
| float64
| bool_
| datetime64_ns
| category (categories : list string).

(** [str(dtype)]. *)
Definition dtype_str (d : Dtype) : string :=
  match d with
  | object_ => "object"
  | int64 => "int64"
  | float64 => "float64"
  | bool_ => "bool"
  | datetime64_ns => "datetime64[ns]"
  | category _ => "category"
  end.

(** A column: its label, its dtype and its element at each row position,
    as the column stores it: [numpy.int64], [numpy.float64] and
    [numpy.bool_] scalars in an int64, float64 and bool column,
    [Timestamp]s and [NaT] in a datetime column, any Python object in an
    object column, a category (a string) or NaN in a categorical column. *)
Record column := {
  label : string;
  dtype : Dtype;
  cells : nat -> pyval
}.

(** A frame: the row labels in order and the columns in order.  pandas
    allows a label to occur twice. *)
Record DataFrame := {
  index : list pyval;
  columns : list column
}.

Definition labels (df : DataFrame) : list string := label <$> columns df.

(** [len(df)], [df.shape] and [df.empty] (an axis of length zero). *)
Definition len (df : DataFrame) : nat := length (index df).

Definition shape (df : DataFrame) : nat * nat :=
  (length (index df), length (columns df)).

Definition is_empty (df : DataFrame) : bool :=
  (length (index df) =? 0)%nat || (length (columns df) =? 0)%nat.

(** The test pandas applies to one element of a column: [None], NaN,
    [NaT] and [NA] are null; a list held in an object column is not. *)
Definition checknull (v : pyval) : bool :=
  match v with
  | PyNone | PdNaT | PdNA => true
  | PyFloat nan | NpFloat64 nan => true
  | _ => false
  end.

(** What [pd.isna(value)] returns: a [bool] for a scalar, an array of
    [bool] for a list or an array. *)
Inductive mask :=
| Flag (b : bool)
| Flags (bs : list bool).

Definition isna (v : pyval) : mask :=
  match v with
  | PyList nulls _ => Flags nulls
  | _ => Flag (checknull v)
  end.

Definition ambiguous_array : exn :=
  {| exc_type := ValueError;
     exc_str := "The truth value of an array with more than one element is ambiguous. Use a.any() or a.all()" |}.

Definition ambiguous_empty : exn :=
  {| exc_type := ValueError;
     exc_str := "The truth value of an empty array is ambiguous. Use `array.size > 0` to check that an array is not empty." |}.

(** [bool(m)], what [if] asks of the result of [pd.isna]: an array of one
    element has the truth of that element, an array of several has none
    (an empty one has none either since numpy 2.2; before, it was false
    with a warning). *)
Definition truth (m : mask) : result bool :=
  match m with
  | Flag b => Ok b
  | Flags [] => Raise ambiguous_empty
  | Flags [b] => Ok b
  | Flags _ => Raise ambiguous_array
  end.

(** [df.copy()]: a new frame with the same content. *)
Definition copy (df : DataFrame) : DataFrame :=
  {| index := index df; columns := columns df |}.

Definition has_null (n : nat) (c : column) : bool :=
  existsb (fun i => checknull (cells c i)) (seq 0 n).

(** The element of a numeric or boolean array once the array is cast to
    object: a Python [int], [float] or [bool]. *)
Definition to_object (v : pyval) : pyval :=
  match v with
  | NpInt64 z => PyInt z
  | NpFloat64 f => PyFloat f
  | NpBool b => PyBool b
  | _ => v
  end.

(** One column of [df.fillna(value)]: every null element is [value].  An
    object column and a categorical column keep their dtype; a numeric or
    datetime column in which something was filled is cast to object (its
    other elements become Python objects), and is left as it is
    otherwise. *)
Definition fill_column (value : pyval) (n : nat) (c : column) : column :=
  match dtype c with
  | object_ | category _ =>
      {| label := label c; dtype := dtype c;
         cells := fun i => if checknull (cells c i) then value else cells c i |}
  | _ =>
      if has_null n c then
        {| label := label c; dtype := object_;
           cells := fun i => if checknull (cells c i) then value
                             else to_object (cells c i) |}
      else c
  end.

(** A categorical column holds what is among its categories and nothing
    else: it refuses any other fill value, whether or not it has a null
    to fill. *)
Definition refuses (value : pyval) (c : column) : bool :=
  match dtype c with
  | category cats =>
      match value with
      | PyStr s => negb (bool_decide (s ∈ cats))
      | _ => negb (checknull value)
      end
  | _ => false
  end.

(** [df.fillna(value)]: a new frame, or the [TypeError] of a categorical
    column. *)
Definition fillna (value : pyval) (df : DataFrame) : result DataFrame :=
  if existsb (refuses value) (columns df) then
    Raise {| exc_type := TypeError;
             exc_str := "Cannot setitem on a Categorical with a new category ("
                        +:+ py_str value +:+ "), set the categories first" |}
  else
    Ok {| index := index df;
          columns := fill_column value (length (index df)) <$> columns df |}.

(** What [str(df[col].dtype)] is: the name of a dtype or, when
    [df[col].dtype] is itself a frame, the printout of that frame, kept
    here as the frame it prints. *)
Inductive dtype_text :=
| DtypeName (name : string)
| FramePrintout (sub : DataFrame).

(** [str(df[col].dtype)].  With a repeated label [df[col]] is the frame of
    the columns under that label, and a frame has no attribute [dtype]:
    pandas then looks the name up among the frame's columns, finds
    nothing and raises, unless the repeated label is "dtype" itself, in
    which case the lookup returns those columns again. *)
Definition getitem_dtype (df : DataFrame) (col : string) : result dtype_text :=
  match filter (fun c => label c = col) (columns df) with
  | [] => Raise {| exc_type := KeyError; exc_str := col |}
  | [c] => Ok (DtypeName (dtype_str (dtype c)))
  | sub =>
      if bool_decide (col = "dtype")
      then Ok (FramePrintout {| index := index df; columns := sub |})
      else Raise {| exc_type := AttributeError;
                    exc_str := "'DataFrame' object has no attribute 'dtype'" |}
  end.

(** The dtype of [df.values], the array the rows of [iterrows] are cut
    from: the dtype the columns share; float64 for integers and reals;
    object for any other mixture and for a categorical column. *)
Definition is_dtype (d e : Dtype) : bool :=
  match d, e with
  | object_, object_ | int64, int64 | float64, float64 | bool_, bool_
  | datetime64_ns, datetime64_ns => true
  | _, _ => false
  end.

Definition is_number (d : Dtype) : bool :=
  match d with
  | int64 | float64 => true
  | _ => false
  end.

Definition common (ds : list Dtype) : Dtype :=
  match ds with
  | [] => object_
  | d :: _ =>
      if forallb (is_dtype d) ds then d
      else if forallb is_number ds then float64
      else object_
  end.

Definition to_float (v : pyval) : pyval :=
  match v with
  | NpInt64 z => NpFloat64 (float_of_int z)
  | _ => v
  end.

(** The element of a column of dtype [d] as a row of dtype [row_dtype]
    holds it. *)
Definition box (row_dtype d : Dtype) (v : pyval) : pyval :=
  match row_dtype, d with
  | object_, (int64 | float64 | bool_) => to_object v
  | float64, int64 => to_float v
  | _, _ => v
  end.

(** The columns as the rows of the frame hold their elements. *)
Definition boxed (df : DataFrame) : list column :=
  (fun c =>
     {| label := label c; dtype := dtype c;
        cells := fun i => box (common (dtype <$> columns df)) (dtype c)
                              (cells c i) |})
  <$> columns df.

(** A row as [iterrows] yields it: the column labels with the row's
    elements. *)
Definition Series := list (string * pyval).

Definition iterrows (df : DataFrame) : list (pyval * Series) :=
  imap (fun i idx => (idx, (fun c => (label c, cells c i)) <$> boxed df))
       (index df).

(** [row[col]]: the element under the label, or the sub-series of all
    its occurrences when the label is repeated. *)
Inductive item :=
| Scalar (v : pyval)
| SubSeries (s : Series).

Definition Series_getitem (row : Series) (col : string) : result item :=
  match filter (fun kv => fst kv = col) row with
  | [] => Raise {| exc_type := KeyError; exc_str := col |}
  | [(_, v)] => Ok (Scalar v)
  | s => Ok (SubSeries s)
  end.

(** On a series [pd.isna] returns a series, and [if] on a series raises
    this error. *)
Definition ambiguous_truth : exn :=
  {| exc_type := ValueError;
     exc_str := "The truth value of a Series is ambiguous. Use a.empty, a.bool(), a.item(), a.any() or a.all()." |}.

(** [value.strftime(fmt)]. *)
Definition method_strftime (v : pyval) (fmt : string) : result string :=
  match v with
  | PyDatetime t | PdTimestamp t => Ok (strftime fmt t)
  | PdNaT =>
      Raise {| exc_type := ValueError;
               exc_str := "NaTType does not support strftime" |}
  | _ =>
      Raise {| exc_type := AttributeError;
               exc_str := "object has no attribute 'strftime'" |}
  end.

End Pandas.

(* ================================================================== *)
(** * cacao: display trees, the optional table components, the App *)
(* ================================================================== *)

Module Cacao.
Import Py.

(** Objects live in a heap; a frame is reached through its location. *)
Definition loc := nat.

Definition alloc (df : Pandas.DataFrame) (h : gmap loc Pandas.DataFrame)
  : loc * gmap loc Pandas.DataFrame :=
  let l := fresh (dom h) in (l, <[l := df]> h).

(** Reading through a reference.  Python has no reference to nothing;
    the model reports one as an error. *)
Definition deref (h : gmap loc Pandas.DataFrame) (l : loc)
  : result Pandas.DataFrame :=
  match h !! l with
  | Some df => Ok df
  | None => Raise {| exc_type := OtherError "ReferenceError";
                     exc_str := "no object at this location" |}
  end.

(** An argument of the entry points: a reference to a frame, or any
    other object. *)
Inductive pyref :=
| Frame (l : loc)
| Other (v : pyval).

(** One column descriptor of the table data. *)
Record column_desc := {
  cd_key : string;
  cd_title : string;
  cd_dataType : Pandas.dtype_text
}.

(** The display tree handed to the rendering host: nested dictionaries
    with string keys, lists of children, texts, and the two payloads of a
    table node. *)
Inductive element :=
| Text (s : string)
| Dict (fields : list (string * element))
| Children (items : list element)
| ColumnList (cols : list column_desc)
| RecordList (rows : list (dict pyval)).

Definition field (k : string) (e : element) : option element :=
  match e with
  | Dict fields => getitem fields k
  | _ => None
  end.

Definition child (i : nat) (e : element) : option element :=
  match e with
  | Children items => items !! i
  | _ => None
  end.

(** What [plugin.process(df)] returns: an object with a [render] method.
    External code receives the reference to the frame, so it may read and
    write the heap. *)
Record table_component := {
  tc_render : gmap loc Pandas.DataFrame ->
              result element * gmap loc Pandas.DataFrame
}.

Record plugin_object := {
  process : loc -> gmap loc Pandas.DataFrame ->
            result table_component * gmap loc Pandas.DataFrame
}.

(** The imports of [viewer.py] that may be missing: the constructor
    [PandasTablePlugin(enhanced_mode, row_threshold, memory_threshold_mb)]
    and [Table(headers, rows, advanced).render()]. *)
Record components := {
  PandasTablePlugin : bool -> nat -> nat -> result plugin_object;
  Table : list string -> list (list pyval) -> bool -> result element
}.

(** What the installation provides: whether [from cacao import App]
    succeeds, and the table components when they can be imported
    ([CACAO_COMPONENTS_AVAILABLE]). *)
Record env := {
  import_App : option exn;
  CACAO_COMPONENTS : option components
}.

Definition CACAO_COMPONENTS_AVAILABLE (E : env) : bool :=
  match CACAO_COMPONENTS E with
  | Some _ => true
  | None => false
  end.

(** A desktop window as [app.brew] is asked to open it. *)
Record window := {
  w_type : string;
  w_title : string;
  w_width : Z;
  w_height : Z;
  w_resizable : bool;
  w_fullscreen : bool
}.

(** The process: the heap, the attribute
    [sys._cacao_pandas_viewer_running] (set or absent), the two output
    streams, the windows opened so far and what the route handler
    returned each time the host asked for the page. *)
Record world := {
  heap : gmap loc Pandas.DataFrame;
  viewer_running : bool;
  stdout : list string;
  stderr : list string;
  windows : list window;
  served : list (result element)
}.

Definition set_heap (h : gmap loc Pandas.DataFrame) (w : world) : world :=
  {| heap := h; viewer_running := viewer_running w; stdout := stdout w;
     stderr := stderr w; windows := windows w; served := served w |}.

Definition set_running (b : bool) (w : world) : world :=
  {| heap := heap w; viewer_running := b; stdout := stdout w;
     stderr := stderr w; windows := windows w; served := served w |}.

Definition print (line : string) (w : world) : world :=
  {| heap := heap w; viewer_running := viewer_running w;
     stdout := stdout w ++ [line];
     stderr := stderr w; windows := windows w; served := served w |}.

Definition print_err (line : string) (w : world) : world :=
  {| heap := heap w; viewer_running := viewer_running w; stdout := stdout w;
     stderr := stderr w ++ [line];
     windows := windows w; served := served w |}.

Definition open_window (win : window) (w : world) : world :=
  {| heap := heap w; viewer_running := viewer_running w; stdout := stdout w;
     stderr := stderr w; windows := windows w ++ [win]; served := served w |}.

Definition serve (r : result element) (w : world) : world :=
  {| heap := heap w; viewer_running := viewer_running w; stdout := stdout w;
     stderr := stderr w; windows := windows w; served := served w ++ [r] |}.

(** The arguments of [preview_dataframe]. *)
Record preview_args := {
  a_dataframe : pyref;
  a_title : option string;
  a_width : Z;
  a_height : Z;
  a_mode : string
}.

(** The behaviour of cacao's [App] during one use: whether [App()] and
    [app.mix] raise, and what [app.brew] does before it returns or
    raises.  While it runs the host may open the window, ask the route
    handler for the page, and (the reload scenario the guard is written
    for) execute the user's script again, which calls [preview_dataframe]
    with some arguments; [Reenter] carries the behaviour the host would
    show to that inner call. *)
Inductive framework :=
| Framework (App_new : option exn) (mix : option exn) (brew : script)
with script :=
| Return
| Fail (e : exn)
| OpenWindow (k : script)
| Request (k : script)
| Reenter (a : preview_args) (f : framework) (k : script).

End Cacao.

(* ================================================================== *)
(** * viewer.py *)
(* ================================================================== *)

Module Viewer.
Import Py Cacao.

(** The attributes of a [PandasTablePage]; [plugin] exists only when the
    table components were imported. *)
Record PandasTablePage := {
  dataframe : loc;
  title : option string;
  mode : string;
  plugin : option plugin_object
}.

(** [PandasTablePage(dataframe, title, mode)]. *)
Definition __init__ (E : env) (dataframe : pyref) (title : option string)
    (mode : string) : result PandasTablePage :=
  match dataframe with
  | Other _ =>
      Raise {| exc_type := ValueError;
               exc_str := "Input must be a pandas DataFrame" |}
  | Frame l =>
      match CACAO_COMPONENTS E with
      | Some C =>
          p ← PandasTablePlugin C (bool_decide (mode = "advanced")) 100 1;
          Ok {| dataframe := l; title := title; mode := mode;
                plugin := Some p |}
      | None =>
          Ok {| dataframe := l; title := title; mode := mode;
                plugin := None |}
      end
  end.

(** The dictionary [_prepare_table_data] returns. *)
Record table_data := {
  columns : list column_desc;
  data : list (dict pyval);
  totalRows : nat;
  shape : nat * nat
}.

(** The list comprehension over [df.columns]. *)
Fixpoint column_descs (df : Pandas.DataFrame) (cols : list string)
  : result (list column_desc) :=
  match cols with
  | [] => Ok []
  | col :: rest =>
      dt ← Pandas.getitem_dtype df col;
      ds ← column_descs df rest;
      Ok ({| cd_key := col; cd_title := col; cd_dataType := dt |} :: ds)
  end.

(** The [if]/[elif] chain of the inner loop ("Handle different data
    types"). *)
Definition convert (value : Pandas.item) : result pyval :=
  match value with
  | Pandas.SubSeries _ => Raise Pandas.ambiguous_truth
  | Pandas.Scalar v =>
      null ← Pandas.truth (Pandas.isna v);
      if null : bool then Ok (PyStr "N/A")
      else if isinstance v [c_int; c_float] then Ok v
      else if isinstance v [c_datetime; c_Timestamp] then
        s ← Pandas.method_strftime v "%Y-%m-%d %H:%M:%S";
        Ok (PyStr s)
      else Ok (PyStr (py_str v))
  end.

(** [for col in df.columns: ...] on one row. *)
Fixpoint row_loop (row : Pandas.Series) (cols : list string)
    (row_data : dict pyval) : result (dict pyval) :=
  match cols with
  | [] => Ok row_data
  | col :: rest =>
      value ← Pandas.Series_getitem row col;
      v ← convert value;
      row_loop row rest (setitem row_data col v)
  end.

(** [for idx, row in df.iterrows(): ...]. *)
Fixpoint rows_loop (rows : list (pyval * Pandas.Series)) (cols : list string)
    (data : list (dict pyval)) : result (list (dict pyval)) :=
  match rows with
  | [] => Ok data
  | (idx, row) :: rest =>
      row_data ← row_loop row cols [("_index", PyStr (py_str idx))];
      rows_loop rest cols (data ++ [row_data])
  end.

(** The body of [_prepare_table_data] once [df] is the filled copy. *)
Definition table_of (df : Pandas.DataFrame) : result table_data :=
  cols ← column_descs df (Pandas.labels df);
  rows ← rows_loop (Pandas.iterrows df) (Pandas.labels df) [];
  Ok {| columns := cols; data := rows;
        totalRows := Pandas.len df; shape := Pandas.shape df |}.

(** [self._prepare_table_data()]: the copy and the filled frame are new
    objects; the local name [df] is bound to each in turn.  When [fillna]
    raises, the copy has been made and nothing else. *)
Definition _prepare_table_data (self : PandasTablePage) (w : world)
  : result table_data * world :=
  match deref (heap w) (dataframe self) with
  | Raise e => (Raise e, w)
  | Ok source =>
      let df := Pandas.copy source in
      let '(_, h1) := alloc df (heap w) in
      match Pandas.fillna (PyStr "N/A") df with
      | Raise e => (Raise e, set_heap h1 w)
      | Ok df =>
          let '(_, h2) := alloc df h1 in
          (table_of df, set_heap h2 w)
      end
  end.

Definition button (label background : string) : element :=
  Dict [("type", Text "button");
        ("props", Dict [
           ("label", Text label);
           ("style", Dict [
              ("padding", Text "6px 12px");
              ("backgroundColor", Text background);
              ("color", Text "white");
              ("border", Text "none");
              ("borderRadius", Text "4px");
              ("cursor", Text "pointer");
              ("fontSize", Text "13px");
              ("fontWeight", Text "500")])])].

(** [self._create_toolbar()]. *)
Definition _create_toolbar (self : PandasTablePage) (w : world)
  : result element :=
  df ← deref (heap w) (dataframe self);
  Ok (Dict [("type", Text "div");
            ("props", Dict [
               ("style", Dict [
                  ("display", Text "flex");
                  ("alignItems", Text "center");
                  ("padding", Text "8px 12px");
                  ("backgroundColor", Text "#F8F9FA");
                  ("borderBottom", Text "1px solid #E2E8F0");
                  ("gap", Text "8px");
                  ("fontFamily", Text "Arial, sans-serif");
                  ("fontSize", Text "13px")]);
               ("children", Children [
                  button "Download CSV" "#4CAF50";
                  button "Download Excel" "#2196F3";
                  Dict [("type", Text "div");
                        ("props", Dict [
                           ("style", Dict [
                              ("marginLeft", Text "auto");
                              ("color", Text "#666");
                              ("fontSize", Text "12px")]);
                           ("content",
                            Text ("Rows: " +:+ pretty (fst (Pandas.shape df))
                                  +:+ " | Columns: "
                                  +:+ pretty (snd (Pandas.shape df))))])]])])]).

(** [self._create_simple_table(table_data)]. *)
Definition _create_simple_table (table_data : table_data) : element :=
  Dict [("type", Text "table");
        ("props", Dict [
           ("id", Text "pandasTable");
           ("columns", ColumnList (columns table_data));
           ("data", RecordList (data table_data));
           ("style", Dict [
              ("width", Text "100%");
              ("border", Text "1px solid #D4D4D4");
              ("borderCollapse", Text "collapse");
              ("fontSize", Text "13px");
              ("fontFamily", Text "Arial, sans-serif");
              ("backgroundColor", Text "#FFFFFF")]);
           ("headerStyle", Dict [
              ("backgroundColor", Text "#F2F2F2");
              ("fontWeight", Text "bold");
              ("padding", Text "6px 8px");
              ("textAlign", Text "left");
              ("border", Text "1px solid #D4D4D4");
              ("color", Text "#333333")]);
           ("cellStyle", Dict [
              ("padding", Text "6px 8px");
              ("border", Text "1px solid #D4D4D4");
              ("textAlign", Text "left");
              ("verticalAlign", Text "top")]);
           ("rowStyle", Dict [
              ("hover", Dict [("backgroundColor", Text "#E8F4FD")])])])].

(** [self._create_advanced_table(table_data)]. *)
Definition _create_advanced_table (E : env) (table_data : table_data)
  : result element :=
  match CACAO_COMPONENTS E with
  | Some C =>
      let headers := map cd_title (columns table_data) in
      let rows :=
        map (fun row_data =>
               map (fun col => get row_data (cd_key col) (PyStr ""))
                   (columns table_data))
            (data table_data) in
      Table C headers rows true
  | None =>
      Ok (Dict [("type", Text "table");
                ("props", Dict [
                   ("id", Text "pandasAdvancedTable");
                   ("columns", ColumnList (columns table_data));
                   ("data", RecordList (data table_data));
                   ("style", Dict [
                      ("width", Text "100%");
                      ("border", Text "1px solid #D4D4D4");
                      ("borderCollapse", Text "collapse");
                      ("fontSize", Text "13px");
                      ("fontFamily", Text "Arial, sans-serif");
                      ("backgroundColor", Text "#FFFFFF")]);
                   ("headerStyle", Dict [
                      ("backgroundColor", Text "#F2F2F2");
                      ("color", Text "#333333");
                      ("fontWeight", Text "bold");
                      ("padding", Text "6px 8px");
                      ("textAlign", Text "left");
                      ("border", Text "1px solid #D4D4D4");
                      ("position", Text "sticky");
                      ("top", Text "0");
                      ("zIndex", Text "1")]);
                   ("cellStyle", Dict [
                      ("padding", Text "6px 8px");
                      ("border", Text "1px solid #D4D4D4");
                      ("textAlign", Text "left");
                      ("verticalAlign", Text "top")]);
                   ("rowStyle", Dict [
                      ("hover", Dict [("backgroundColor", Text "#E8F4FD")]);
                      ("alternating",
                       Dict [("backgroundColor", Text "#FAFAFA")])])])])
  end.

(** [self._create_table_component(table_data)]. *)
Definition _create_table_component (E : env) (self : PandasTablePage)
    (table_data : table_data) : result element :=
  if bool_decide (mode self = "simple")
  then Ok (_create_simple_table table_data)
  else _create_advanced_table E table_data.

(** The layout both branches of [render] return: the toolbar above the
    table. *)
Definition layout (toolbar table : element) : element :=
  Dict [("type", Text "div");
        ("props", Dict [
           ("style", Dict [
              ("height", Text "100%");
              ("display", Text "flex");
              ("flexDirection", Text "column");
              ("backgroundColor", Text "#FFFFFF");
              ("fontFamily", Text "Arial, sans-serif")]);
           ("children", Children [
              toolbar;
              Dict [("type", Text "div");
                    ("props", Dict [
                       ("style", Dict [
                          ("flex", Text "1");
                          ("overflow", Text "auto");
                          ("border", Text "1px solid #E2E8F0")]);
                       ("children", Children [table])])]])])].

(** [self.render()]. *)
Definition render (E : env) (self : PandasTablePage) (w : world)
  : result element * world :=
  if CACAO_COMPONENTS_AVAILABLE E then
    match plugin self with
    | None =>
        (Raise {| exc_type := AttributeError;
                  exc_str := "'PandasTablePage' object has no attribute 'plugin'" |},
         w)
    | Some p =>
        match process p (dataframe self) (heap w) with
        | (Raise e, h1) => (Raise e, set_heap h1 w)
        | (Ok table_component, h1) =>
            let w1 := set_heap h1 w in
            match _create_toolbar self w1 with
            | Raise e => (Raise e, w1)
            | Ok toolbar =>
                match tc_render table_component h1 with
                | (Raise e, h2) => (Raise e, set_heap h2 w1)
                | (Ok table, h2) => (Ok (layout toolbar table), set_heap h2 w1)
                end
            end
        end
    end
  else
    match _prepare_table_data self w with
    | (Raise e, w1) => (Raise e, w1)
    | (Ok table_data, w1) =>
        (toolbar ← _create_toolbar self w1;
         table ← _create_table_component E self table_data;
         Ok (layout toolbar table),
         w1)
    end.

(** [title if title else "Pandas DataFrame Viewer"]: [None] and the empty
    string are false. *)
Definition window_title (title : option string) : string :=
  match title with
  | Some t => if bool_decide (t = "") then "Pandas DataFrame Viewer" else t
  | None => "Pandas DataFrame Viewer"
  end.

(** The [try] block of [preview_dataframe].  [brew] is [app.brew] of the
    [App] just built: it receives the route handler and the window. *)
Definition preview_try (E : env) (App_new mix : option exn)
    (brew : (world -> result element * world) -> window -> world ->
            result unit * world)
    (a : preview_args) (w : world) : result unit * world :=
  match import_App E with
  | Some e => (Raise e, w)
  | None =>
      match App_new with
      | Some e => (Raise e, w)
      | None =>
          match __init__ E (a_dataframe a) (a_title a) (a_mode a) with
          | Raise e => (Raise e, w)
          | Ok viewer =>
              match mix with
              | Some e => (Raise e, w)
              | None =>
                  brew (render E viewer)
                       {| w_type := "desktop";
                          w_title := window_title (a_title a);
                          w_width := a_width a;
                          w_height := a_height a;
                          w_resizable := true;
                          w_fullscreen := false |}
                       w
              end
          end
      end
  end.

(** The flag is set, the [try] block runs, and [finally] deletes the
    attribute when it is there, whatever the block did. *)
Definition preview_guarded (E : env) (App_new mix : option exn)
    (brew : (world -> result element * world) -> window -> world ->
            result unit * world)
    (a : preview_args) (w : world) : result unit * world :=
  let '(r, w1) := preview_try E App_new mix brew a (set_running true w) in
  (r, if viewer_running w1 then set_running false w1 else w1).

Definition duplicate_warning : string :=
  "Warning: Cacao Pandas UI is already running. Ignoring duplicate call.".

(** The guard in front of it. *)
Definition preview_dataframe_with (E : env) (App_new mix : option exn)
    (brew : (world -> result element * world) -> window -> world ->
            result unit * world)
    (a : preview_args) (w : world) : result unit * world :=
  if viewer_running w then (Ok tt, print duplicate_warning w)
  else preview_guarded E App_new mix brew a w.

(** [app.brew(...)] played by the host's script. *)
Fixpoint run_script (E : env) (s : script)
    (home : world -> result element * world) (win : window) (w : world)
    {struct s} : result unit * world :=
  match s with
  | Return => (Ok tt, w)
  | Fail e => (Raise e, w)
  | OpenWindow k => run_script E k home win (open_window win w)
  | Request k =>
      let '(r, w1) := home w in
      run_script E k home win (serve r w1)
  | Reenter a f k =>
      let '(r, w1) :=
        match f with
        | Framework App_new mix brew =>
            preview_dataframe_with E App_new mix (run_script E brew) a w
        end in
      match r with
      | Ok _ => run_script E k home win w1
      | Raise e => (Raise e, w1)
      end
  end.

(** [preview_dataframe(dataframe, title, width, height, mode)] against a
    host that behaves as [f]. *)
Definition preview_dataframe (E : env) (f : framework) (a : preview_args)
    (w : world) : result unit * world :=
  match f with
  | Framework App_new mix brew =>
      preview_dataframe_with E App_new mix (run_script E brew) a w
  end.

(** [create_simple_table(dataframe, title=...)] and its sibling. *)
Definition create_simple_table (E : env) (dataframe : pyref)
    (title : option string) : result PandasTablePage :=
  __init__ E dataframe title "simple".

Definition create_advanced_table (E : env) (dataframe : pyref)
    (title : option string) : result PandasTablePage :=
  __init__ E dataframe title "advanced".

End Viewer.

(* ================================================================== *)
(** * cli.py *)
(* ================================================================== *)

Module Cli.
Import Py Cacao.

(** ** Strings and paths *)

Definition lower_char (c : ascii) : ascii :=
  let n := nat_of_ascii c in
  if ((65 <=? n) && (n <=? 90))%nat then ascii_of_nat (n + 32) else c.

(** [s.lower()]. *)
Fixpoint lower (s : string) : string :=
  match s with
  | "" => ""
  | String c rest => String (lower_char c) (lower rest)
  end.

(** [s.split(sep)]. *)
Fixpoint split (sep : ascii) (s : string) : list string :=
  match s with
  | "" => [""]
  | String c rest =>
      if bool_decide (c = sep) then "" :: split sep rest
      else match split sep rest with
           | piece :: pieces => String c piece :: pieces
           | [] => [String c ""]
           end
  end.

(** [s.rfind(c)], [None] for -1. *)
Fixpoint rfind (c : ascii) (s : string) : option nat :=
  match s with
  | "" => None
  | String x rest =>
      match rfind c rest with
      | Some i => Some (S i)
      | None => if bool_decide (x = c) then Some 0 else None
      end
  end.

(** [s.endswith(suffix)]. *)
Definition endswith (s suffix : string) : bool :=
  (String.length suffix <=? String.length s)%nat &&
  bool_decide (substring (String.length s - String.length suffix)
                         (String.length suffix) s = suffix).

(** A [pathlib] path once parsed: the root and the parts after it. *)
Record path := { root : string; parts : list string }.

(** [Path(s)] on POSIX: one leading slash or exactly two are the root,
    empty parts and [.] parts are dropped. *)
Definition Path (s : string) : path :=
  match s with
  | String "/" (String "/" (String "/" _)) =>
      {| root := "/";
         parts := filter (fun x => x <> "" /\ x <> ".") (split "/" s) |}
  | String "/" (String "/" _) =>
      {| root := "//";
         parts := filter (fun x => x <> "" /\ x <> ".") (split "/" s) |}
  | String "/" _ =>
      {| root := "/";
         parts := filter (fun x => x <> "" /\ x <> ".") (split "/" s) |}
  | _ =>
      {| root := "";
         parts := filter (fun x => x <> "" /\ x <> ".") (split "/" s) |}
  end.

(** [str(p)]. *)
Definition path_str (p : path) : string :=
  match root p, parts p with
  | "", [] => "."
  | r, ps => r +:+ String.concat "/" ps
  end.

(** [p.name]: the last part. *)
Definition name (p : path) : string := List.last (parts p) "".

(** [p.suffix]: from the last dot of the name, when that dot is neither
    its first nor its last character. *)
Definition suffix (p : path) : string :=
  let n := name p in
  match rfind "." n with
  | Some i =>
      if ((0 <? i) && (i <? String.length n - 1))%nat
      then substring i (String.length n - i) n
      else ""
  | None => ""
  end.

(** ** Loading *)

(** A keyword argument of a reader. *)
Inductive kwval :=
| KStr (s : string)
| KInt (z : Z).

(** The pandas readers: each is given the path and the keyword arguments
    and returns a frame or raises.  What a reader finds in the file
    system is part of the reader. *)
Record readers := {
  read_csv : path -> dict kwval -> result Pandas.DataFrame;
  read_excel : path -> dict kwval -> result Pandas.DataFrame;
  read_json : path -> dict kwval -> result Pandas.DataFrame;
  read_parquet : path -> dict kwval -> result Pandas.DataFrame;
  read_pickle : path -> dict kwval -> result Pandas.DataFrame
}.

Definition tab : string := String (ascii_of_nat 9) "".

(** The body of the [try] block: the reader chosen by the extension. *)
Definition dispatch (rd : readers) (filepath : path) (file_extension : string)
    (kwargs : dict kwval) : result Pandas.DataFrame :=
  if bool_decide (file_extension = ".csv") then read_csv rd filepath kwargs
  else if bool_decide (file_extension ∈ [".xlsx"; ".xls"]) then
    read_excel rd filepath kwargs
  else if bool_decide (file_extension = ".json") then
    read_json rd filepath kwargs
  else if bool_decide (file_extension = ".parquet") then
    read_parquet rd filepath kwargs
  else if bool_decide (file_extension ∈ [".tsv"; ".tab"]) then
    match getitem kwargs "sep" with
    | Some _ =>
        Raise {| exc_type := TypeError;
                 exc_str := "got multiple values for keyword argument 'sep'" |}
    | None => read_csv rd filepath (setitem kwargs "sep" (KStr tab))
    end
  else if bool_decide (file_extension = ".pkl")
          || bool_decide (file_extension = ".pickle") then
    read_pickle rd filepath kwargs
  else
    Raise {| exc_type := ValueError;
             exc_str := "Unsupported file format: " +:+ file_extension |}.

(** [load_dataframe_from_file(filepath, **kwargs)]: [except Exception]
    wraps what the [try] block raised. *)
Definition load_dataframe_from_file (rd : readers) (filepath : string)
    (kwargs : dict kwval) : result Pandas.DataFrame :=
  let filepath := Path filepath in
  let file_extension := lower (suffix filepath) in
  match dispatch rd filepath file_extension kwargs with
  | Ok df => Ok df
  | Raise e =>
      if is_Exception (exc_type e) then
        Raise {| exc_type := Exception;
                 exc_str := "Error loading file '" +:+ path_str filepath
                            +:+ "': " +:+ exc_str e |}
      else Raise e
  end.

(** ** The entry point *)

(** The namespace [parse_args] returns. *)
Record arguments := {
  data_file : option string;
  title : string;
  width : Z;
  height : Z;
  mode : string;
  sample : bool;
  delimiter : string;
  encoding : string;
  header : Z;
  sheet : option string
}.

(** [str(df.shape)]. *)
Definition shape_str (sh : nat * nat) : string :=
  "(" +:+ pretty (fst sh) +:+ ", " +:+ pretty (snd sh) +:+ ")".

(** Truth of an optional string: [None] and the empty string are false. *)
Definition truthy (s : option string) : bool :=
  match s with
  | Some t => negb (bool_decide (t = ""))
  | None => false
  end.

Definition load_kwargs (args : arguments) (file : string) : dict kwval :=
  let kw := [("encoding", KStr (encoding args))] in
  if endswith file ".csv" || endswith file ".tsv" then
    setitem (setitem kw "delimiter" (KStr (delimiter args)))
            "header" (KInt (header args))
  else if (endswith file ".xlsx" || endswith file ".xls")
          && truthy (sheet args) then
    setitem kw "sheet_name" (KStr (default "" (sheet args)))
  else kw.

Definition exit_1 : exn := {| exc_type := SystemExit; exc_str := "1" |}.

(** The [try] block of [main] with its [except Exception] clause: the
    frame that was loaded, or the exit. *)
Definition main_load (rd : readers) (create_sample_dataframe : Pandas.DataFrame)
    (args : arguments) (w : world) : result Pandas.DataFrame * world :=
  let attempt :=
    if sample args then
      let df := create_sample_dataframe in
      (Ok df,
       print ("Using sample DataFrame with shape: "
              +:+ shape_str (Pandas.shape df)) w)
    else if truthy (data_file args) then
      let file := default "" (data_file args) in
      match load_dataframe_from_file rd file (load_kwargs args file) with
      | Ok df =>
          (Ok df,
           print ("Loaded DataFrame from '" +:+ file +:+ "' with shape: "
                  +:+ shape_str (Pandas.shape df)) w)
      | Raise e => (Raise e, w)
      end
    else
      (Raise exit_1,
       print_err "Use --help for usage information."
         (print_err "Error: No data file specified and --sample not used." w))
  in
  match attempt with
  | (Raise e, w1) =>
      if is_Exception (exc_type e) then
        (Raise exit_1, print_err ("Error loading data: " +:+ exc_str e) w1)
      else (Raise e, w1)
  | ok => ok
  end.

(** [main()] after [parse_args], against a host that behaves as [f]. *)
Definition main (E : env) (rd : readers)
    (create_sample_dataframe : Pandas.DataFrame) (f : framework)
    (args : arguments) (w : world) : result unit * world :=
  match main_load rd create_sample_dataframe args w with
  | (Raise e, w1) => (Raise e, w1)
  | (Ok loaded, w1) =>
      let '(df, h) := alloc loaded (heap w1) in
      let w2 := set_heap h w1 in
      let w3 := if Pandas.is_empty loaded
                then print_err "Warning: DataFrame is empty" w2 else w2 in
      match f with
      | Framework App_new mix brew =>
          match App_new with
          | Some e => (Raise e, w3)
          | None =>
              match Viewer.__init__ E (Frame df) (Some (title args))
                                    (mode args) with
              | Raise e => (Raise e, w3)
              | Ok viewer =>
                  match mix with
                  | Some e => (Raise e, w3)
                  | None =>
                      Viewer.run_script E brew (Viewer.render E viewer)
                        {| w_type := "desktop";
                           w_title := title args;
                           w_width := width args;
                           w_height := height args;
                           w_resizable := true;
                           w_fullscreen := false |}
                        w3
                  end
              end
          end
      end
  end.

End Cli.

(* ================================================================== *)
(** * Notions the statements use *)
(* ================================================================== *)

Module Notions.
Import Py Cacao.

(** ** Numeric cells, in the words of the data model

    The data model lists integer and real columns apart from boolean
    ones; a numeric cell is an integer or a real of either library. *)
Definition is_numeric (v : pyval) : bool :=
  match v with
  | PyInt _ | NpInt64 _ | PyFloat _ | NpFloat64 _ => true
  | _ => false
  end.

(** ** Frames of scalars in numpy-backed columns

    A scalar is an object on which [pd.isna] returns a [bool]: anything
    but a list or an array.  A frame is [basic] when none of its columns
    is categorical and every cell of its rows is a scalar. *)
Definition scalar (v : pyval) : bool :=
  match v with
  | PyList _ _ => false
  | _ => true
  end.

Definition numpy_backed (d : Pandas.Dtype) : bool :=
  match d with
  | Pandas.category _ => false
  | _ => true
  end.

Definition basic (df : Pandas.DataFrame) : bool :=
  forallb (fun c =>
             numpy_backed (Pandas.dtype c) &&
             forallb (fun i => scalar (Pandas.cells c i))
                     (seq 0 (length (Pandas.index df))))
          (Pandas.columns df).

(** ** The record of a row

    What the conversion makes of a scalar (it never fails on one) and the
    record the two loops build for the row at position [i] from the
    columns as the rows hold them. *)
Definition shown (v : pyval) : pyval :=
  match Viewer.convert (Pandas.Scalar v) with
  | Ok x => x
  | Raise _ => v
  end.

(** One step of the inner loop. *)
Definition put_cell (i : nat) (row_data : dict pyval) (c : Pandas.column)
  : dict pyval :=
  setitem row_data (Pandas.label c) (shown (Pandas.cells c i)).

Definition record_of (cs : list Pandas.column) (i : nat) (idx : pyval)
  : dict pyval :=
  fold_left (put_cell i) cs [("_index", PyStr (py_str idx))].

(** The frame [fillna("N/A")] returns on a copy of [df], when it
    returns one: the frame the loops run over. *)
Definition filled_frame (df : Pandas.DataFrame) : Pandas.DataFrame :=
  {| Pandas.index := Pandas.index df;
     Pandas.columns :=
       Pandas.fill_column (PyStr "N/A") (length (Pandas.index df))
       <$> Pandas.columns df |}.

(** The heap after [_prepare_table_data] has made the copy, and after it
    has made the copy and the filled frame. *)
Definition copied (df : Pandas.DataFrame) (h : gmap loc Pandas.DataFrame)
  : gmap loc Pandas.DataFrame :=
  snd (alloc (Pandas.copy df) h).

Definition prepared (df : Pandas.DataFrame) (h : gmap loc Pandas.DataFrame)
  : gmap loc Pandas.DataFrame :=
  snd (alloc (filled_frame df) (copied df h)).

(** ** Reading [YYYY-MM-DD HH:MM:SS] back *)

Definition digit_value (c : ascii) : option Z :=
  let n := Z.of_nat (nat_of_ascii c) in
  if ((48 <=? n) && (n <=? 57))%Z then Some (n - 48)%Z else None.

(** The number written by exactly [w] decimal digits at the head of [s],
    and the rest of [s]. *)
Fixpoint read_digits (w : nat) (acc : Z) (s : string)
  : option (Z * string) :=
  match w with
  | 0 => Some (acc, s)
  | S w' =>
      match s with
      | String c rest =>
          match digit_value c with
          | Some d => read_digits w' (10 * acc + d)%Z rest
          | None => None
          end
      | "" => None
      end
  end.

Definition read_char (c : ascii) (s : string) : option string :=
  match s with
  | String x rest => if bool_decide (x = c) then Some rest else None
  | "" => None
  end.

(** A text has the form [YYYY-MM-DD HH:MM:SS] when it is four digits, a
    dash, two digits, a dash, two digits, a space, and three pairs of
    digits separated by colons, and nothing more; the value is the
    datetime those digits write. *)
Definition read_timestamp (s : string) : option datetime :=
  '(yr, s) ← read_digits 4 0 s;
  s ← read_char "-" s;
  '(mo, s) ← read_digits 2 0 s;
  s ← read_char "-" s;
  '(dy, s) ← read_digits 2 0 s;
  s ← read_char " " s;
  '(hh, s) ← read_digits 2 0 s;
  s ← read_char ":" s;
  '(mi, s) ← read_digits 2 0 s;
  s ← read_char ":" s;
  '(ss, s) ← read_digits 2 0 s;
  if bool_decide (s = "") then
    Some {| year := yr; month := mo; day := dy;
            hour := hh; minute := mi; second := ss; microsecond := 0 |}
  else None.

(** The ranges [datetime] keeps its fields in. *)
Definition valid_datetime (t : datetime) : Prop :=
  (1 <= year t <= 9999 /\ 1 <= month t <= 12 /\ 1 <= day t <= 31 /\
   0 <= hour t <= 23 /\ 0 <= minute t <= 59 /\ 0 <= second t <= 59 /\
   0 <= microsecond t <= 999999)%Z.

Definition whole_seconds (t : datetime) : datetime :=
  {| year := year t; month := month t; day := day t;
     hour := hour t; minute := minute t; second := second t;
     microsecond := 0 |}.

(** ** What a host script does at its own level *)

(** The windows the script opens, the pages it requests and the calls
    it re-enters, not counting what is inside a re-entered call's own
    script. *)
Fixpoint opens (s : script) : nat :=
  match s with
  | Return | Fail _ => 0
  | OpenWindow k => S (opens k)
  | Request k | Reenter _ _ k => opens k
  end.

Fixpoint requests (s : script) : nat :=
  match s with
  | Return | Fail _ => 0
  | Request k => S (requests k)
  | OpenWindow k | Reenter _ _ k => requests k
  end.

Fixpoint reenters (s : script) : nat :=
  match s with
  | Return | Fail _ => 0
  | Reenter _ _ k => S (reenters k)
  | OpenWindow k | Request k => reenters k
  end.

(** How the script ends. *)
Fixpoint outcome (s : script) : result unit :=
  match s with
  | Return => Ok tt
  | Fail e => Raise e
  | OpenWindow k | Request k | Reenter _ _ k => outcome k
  end.

Definition brew_of (f : framework) : script :=
  match f with
  | Framework _ _ brew => brew
  end.

(** The [try] block of [preview_dataframe] gets as far as [app.brew]. *)
Definition reaches_brew (E : env) (f : framework) (a : preview_args) : bool :=
  match f with
  | Framework App_new mix _ =>
      match import_App E, App_new,
            Viewer.__init__ E (a_dataframe a) (a_title a) (a_mode a), mix with
      | None, None, Ok _, None => true
      | _, _, _, _ => false
      end
  end.

(** The window [preview_dataframe] asks for. *)
Definition window_of (a : preview_args) : window :=
  {| w_type := "desktop";
     w_title := Viewer.window_title (a_title a);
     w_width := a_width a;
     w_height := a_height a;
     w_resizable := true;
     w_fullscreen := false |}.

(** ** The data list of a display tree *)

Definition record_list (e : element) : option (list (dict pyval)) :=
  match e with
  | RecordList rows => Some rows
  | _ => None
  end.

(** [tree["props"]["children"][1]["props"]["children"][0]["props"]["data"]]. *)
Definition table_rows (tree : element) : option (list (dict pyval)) :=
  e ← field "props" tree;
  e ← field "children" e;
  e ← child 1 e;
  e ← field "props" e;
  e ← field "children" e;
  e ← child 0 e;
  e ← field "props" e;
  e ← field "data" e;
  record_list e.

(** ** Sequences of calls on a page *)

Inductive call :=
| call_render
| call_prepare_table_data.

Definition run_call (E : env) (self : Viewer.PandasTablePage) (c : call)
    (w : world) : world :=
  match c with
  | call_render => snd (Viewer.render E self w)
  | call_prepare_table_data => snd (Viewer._prepare_table_data self w)
  end.

Definition run_calls (E : env) (self : Viewer.PandasTablePage)
    (cs : list call) (w : world) : world :=
  fold_left (fun w c => run_call E self c w) cs w.

(** An external table plugin that leaves the frames it is shown as they
    are: neither [process] nor the [render] of what it returns changes an
    object of the heap. *)
Definition keeps (h h' : gmap loc Pandas.DataFrame) : Prop :=
  forall l df, h !! l = Some df -> h' !! l = Some df.

Definition read_only (p : plugin_object) : Prop :=
  forall l h r h', process p l h = (r, h') ->
    keeps h h' /\
    forall tc, r = Ok tc ->
      forall h1 r1 h2, tc_render tc h1 = (r1, h2) -> keeps h1 h2.

(** A route handler that touches nothing but the heap. *)
Definition heap_only (home : world -> result element * world) : Prop :=
  forall w, exists h, snd (home w) = set_heap h w.

(** ** Files *)

(** The extensions [load_dataframe_from_file] has a reader for. *)
Definition recognized : list string :=
  [".csv"; ".xlsx"; ".xls"; ".json"; ".parquet"; ".tsv"; ".tab";
   ".pkl"; ".pickle"].

(** The library reader that serves an extension raises [e] on this file. *)
Inductive reader_raises (rd : Cli.readers) (p : Cli.path)
    (kwargs : dict Cli.kwval) (e : exn) : string -> Prop :=
| csv_raises :
    Cli.read_csv rd p kwargs = Raise e -> reader_raises rd p kwargs e ".csv"
| excel_raises ext :
    ext ∈ [".xlsx"; ".xls"] ->
    Cli.read_excel rd p kwargs = Raise e -> reader_raises rd p kwargs e ext
| json_raises :
    Cli.read_json rd p kwargs = Raise e -> reader_raises rd p kwargs e ".json"
| parquet_raises :
    Cli.read_parquet rd p kwargs = Raise e ->
    reader_raises rd p kwargs e ".parquet"
| tsv_raises ext :
    ext ∈ [".tsv"; ".tab"] ->
    getitem kwargs "sep" = None ->
    Cli.read_csv rd p (setitem kwargs "sep" (Cli.KStr Cli.tab)) = Raise e ->
    reader_raises rd p kwargs e ext
| pickle_raises ext :
    ext ∈ [".pkl"; ".pickle"] ->
    Cli.read_pickle rd p kwargs = Raise e -> reader_raises rd p kwargs e ext.

(** [s] occurs in [t]. *)
Definition embeds (s t : string) : Prop :=
  exists before after, t = before +:+ s +:+ after.

(** How a host that behaves as [f] ends when nothing of the package
    fails before [app.brew]. *)
Definition host_outcome (f : framework) : result unit :=
  match f with
  | Framework (Some e) _ _ => Raise e
  | Framework None (Some e) _ => Raise e
  | Framework None None brew => outcome brew
  end.

Definition host_serves (f : framework) : nat :=
  match f with
  | Framework None None brew => requests brew
  | _ => 0
  end.

End Notions.

(* ================================================================== *)
(** * Concrete frames, pages and hosts *)
(* ================================================================== *)

Module Examples.
Import Py Cacao.

Definition column_of (label : string) (dtype : Pandas.Dtype)
    (values : list pyval) : Pandas.column :=
  {| Pandas.label := label; Pandas.dtype := dtype;
     Pandas.cells := fun i => default PyNone (values !! i) |}.

Definition new_year_2023 : datetime :=
  {| year := 2023; month := 1; day := 1;
     hour := 0; minute := 0; second := 0; microsecond := 0 |}.

(** [pd.DataFrame({'Name': ['Alice', 'Bob'], 'Age': [25, 30],
    'Score': [4.5, nan], 'Joined': [Timestamp('2023-01-01'), NaT],
    'Active': [True, False]})]: the dtypes are mixed, so the rows are
    object series holding Python scalars and timestamps. *)
Definition staff : Pandas.DataFrame :=
  {| Pandas.index := [PyInt 0; PyInt 1];
     Pandas.columns :=
       [column_of "Name" Pandas.object_ [PyStr "Alice"; PyStr "Bob"];
        column_of "Age" Pandas.int64 [NpInt64 25; NpInt64 30];
        column_of "Score" Pandas.float64
                  [NpFloat64 (fnum "4.5"); NpFloat64 nan];
        column_of "Joined" Pandas.datetime64_ns
                  [PdTimestamp new_year_2023; PdNaT];
        column_of "Active" Pandas.bool_ [NpBool true; NpBool false]] |}.

(** [pd.DataFrame({'_index': ['x']})]. *)
Definition index_named : Pandas.DataFrame :=
  {| Pandas.index := [PyInt 0];
     Pandas.columns := [column_of "_index" Pandas.object_ [PyStr "x"]] |}.

(** [pd.DataFrame({'a': [1, 2]})]: every column is int64, so the rows are
    int64 series and item access returns [numpy.int64]. *)
Definition counts : Pandas.DataFrame :=
  {| Pandas.index := [PyInt 0; PyInt 1];
     Pandas.columns := [column_of "a" Pandas.int64 [NpInt64 1; NpInt64 2]] |}.

(** [pd.DataFrame({'n': [1, 2], 'x': [0.5, 1.5]})]: integers beside
    reals, so the rows are float64 series. *)
Definition measures : Pandas.DataFrame :=
  {| Pandas.index := [PyInt 0; PyInt 1];
     Pandas.columns :=
       [column_of "n" Pandas.int64 [NpInt64 1; NpInt64 2];
        column_of "x" Pandas.float64
                  [NpFloat64 (fnum "0.5"); NpFloat64 (fnum "1.5")]] |}.

(** [pd.DataFrame({'Name': ['Alice'], 'Active': [True]})]. *)
Definition flags : Pandas.DataFrame :=
  {| Pandas.index := [PyInt 0];
     Pandas.columns :=
       [column_of "Name" Pandas.object_ [PyStr "Alice"];
        column_of "Active" Pandas.bool_ [NpBool true]] |}.

(** [pd.DataFrame({'Grade': pd.Categorical(['a', None],
    categories=['a', 'b'])})]: a categorical column with a missing
    value. *)
Definition grades : Pandas.DataFrame :=
  {| Pandas.index := [PyInt 0; PyInt 1];
     Pandas.columns :=
       [column_of "Grade" (Pandas.category ["a"; "b"])
                  [PyStr "a"; PyFloat nan]] |}.

(** [pd.DataFrame({'Name': ['Alice'], 'Tags': [['x', 'y']]})]: a cell that
    is a list, as [read_json] produces them. *)
Definition tagged : Pandas.DataFrame :=
  {| Pandas.index := [PyInt 0];
     Pandas.columns :=
       [column_of "Name" Pandas.object_ [PyStr "Alice"];
        column_of "Tags" Pandas.object_
                  [PyList [false; false] "['x', 'y']"]] |}.

(** [pd.DataFrame({'Event': ['founded'], 'When': [datetime(999, 1, 1)]},
    dtype=object)]. *)
Definition year_999 : datetime :=
  {| year := 999; month := 1; day := 1;
     hour := 0; minute := 0; second := 0; microsecond := 0 |}.

Definition chronicle : Pandas.DataFrame :=
  {| Pandas.index := [PyInt 0];
     Pandas.columns :=
       [column_of "Event" Pandas.object_ [PyStr "founded"];
        column_of "When" Pandas.object_ [PyDatetime year_999]] |}.

(** [pd.DataFrame(columns=['a', 'b'])] and [pd.DataFrame(columns=['a', 'a'])]:
    no rows. *)
Definition no_rows : Pandas.DataFrame :=
  {| Pandas.index := [];
     Pandas.columns := [column_of "a" Pandas.object_ [];
                        column_of "b" Pandas.object_ []] |}.

Definition no_rows_repeated : Pandas.DataFrame :=
  {| Pandas.index := [];
     Pandas.columns := [column_of "a" Pandas.object_ [];
                        column_of "a" Pandas.object_ []] |}.

(** [pd.DataFrame({'Grade': pd.Categorical([], categories=['a', 'b'])})]:
    a categorical column and no rows. *)
Definition no_grades : Pandas.DataFrame :=
  {| Pandas.index := [];
     Pandas.columns := [column_of "Grade" (Pandas.category ["a"; "b"]) []] |}.

(** A fresh process, and one whose heap holds a frame at location 0. *)
Definition start : world :=
  {| heap := ∅; viewer_running := false; stdout := []; stderr := [];
     windows := []; served := [] |}.

Definition holding (df : Pandas.DataFrame) : world :=
  set_heap {[ 0%nat := df ]} start.

(** An installation without the table components, and the page on the
    frame at location 0 built there. *)
Definition plain : env := {| import_App := None; CACAO_COMPONENTS := None |}.

Definition page (mode : string) : Viewer.PandasTablePage :=
  {| Viewer.dataframe := 0%nat; Viewer.title := None; Viewer.mode := mode;
     Viewer.plugin := None |}.

(** An installation with table components: a plugin that looks at
    nothing and renders a fixed table, and a [Table] that does the same. *)
Definition fixed_plugin : plugin_object :=
  {| process := fun _ h =>
       (Ok {| tc_render := fun h => (Ok (Text "table"), h) |}, h) |}.

Definition installed : env :=
  {| import_App := None;
     CACAO_COMPONENTS :=
       Some {| PandasTablePlugin := fun _ _ _ => Ok fixed_plugin;
               Table := fun _ _ _ => Ok (Text "table") |} |}.

(** [preview_dataframe(df, title="Staff")] on the frame at location 0. *)
Definition staff_preview : preview_args :=
  {| a_dataframe := Frame 0%nat; a_title := Some "Staff";
     a_width := 1000; a_height := 700; a_mode := "advanced" |}.

(** A host that opens the window and returns. *)
Definition quiet_host : framework := Framework None None (OpenWindow Return).

(** A host that opens the window, then reloads the user's script, which
    calls [preview_dataframe] again on a host ready to open a window of
    its own, then asks for the page and returns. *)
Definition reloading_host : framework :=
  Framework None None
    (OpenWindow (Reenter staff_preview quiet_host (Request Return))).

(** A host that opens the window, asks for the page and returns. *)
Definition serving_host : framework :=
  Framework None None (OpenWindow (Request Return)).

(** Readers that find the same frame in every file, and readers that
    find no file. *)
Definition readers_of (df : Pandas.DataFrame) : Cli.readers :=
  {| Cli.read_csv := fun _ _ => Ok df;
     Cli.read_excel := fun _ _ => Ok df;
     Cli.read_json := fun _ _ => Ok df;
     Cli.read_parquet := fun _ _ => Ok df;
     Cli.read_pickle := fun _ _ => Ok df |}.

Definition file_not_found : exn :=
  {| exc_type := OtherError "FileNotFoundError";
     exc_str := "[Errno 2] No such file or directory: 'data/missing.csv'" |}.

Definition failing_readers : Cli.readers :=
  {| Cli.read_csv := fun _ _ => Raise file_not_found;
     Cli.read_excel := fun _ _ => Raise file_not_found;
     Cli.read_json := fun _ _ => Raise file_not_found;
     Cli.read_parquet := fun _ _ => Raise file_not_found;
     Cli.read_pickle := fun _ _ => Raise file_not_found |}.

(** Readers of which [read_pickle] alone finds its file: a pickled frame
    comes back as it was saved, repeated labels included. *)
Definition unpickling (df : Pandas.DataFrame) : Cli.readers :=
  {| Cli.read_csv := fun _ _ => Raise file_not_found;
     Cli.read_excel := fun _ _ => Raise file_not_found;
     Cli.read_json := fun _ _ => Raise file_not_found;
     Cli.read_parquet := fun _ _ => Raise file_not_found;
     Cli.read_pickle := fun _ _ => Ok df |}.

(** [cacao-pandas-ui empty.csv] and [cacao-pandas-ui empty.pkl] with the
    defaults of the parser. *)
Definition view_empty_csv : Cli.arguments :=
  {| Cli.data_file := Some "empty.csv";
     Cli.title := "Pandas DataFrame Viewer";
     Cli.width := 1000; Cli.height := 700;
     Cli.mode := "advanced";
     Cli.sample := false;
     Cli.delimiter := ",";
     Cli.encoding := "utf-8";
     Cli.header := 0;
     Cli.sheet := None |}.

Definition view_empty_pickle : Cli.arguments :=
  {| Cli.data_file := Some "empty.pkl";
     Cli.title := "Pandas DataFrame Viewer";
     Cli.width := 1000; Cli.height := 700;
     Cli.mode := "advanced";
     Cli.sample := false;
     Cli.delimiter := ",";
     Cli.encoding := "utf-8";
     Cli.header := 0;
     Cli.sheet := None |}.

End Examples.

(* ================================================================== *)
(** * Further notions: parts of a tree, readers that return, variants *)
(* ================================================================== *)

Module Probes.
Import Py Cacao.

(** The error of [df[col].dtype] on a repeated label. *)
Definition no_dtype : exn :=
  {| exc_type := AttributeError;
     exc_str := "'DataFrame' object has no attribute 'dtype'" |}.

(** A value a display record may hold once the conversion is done: a
    string, or an instance of [int] or [float] that is not null. *)
Definition clean (v : pyval) : bool :=
  match v with
  | PyStr _ => true
  | _ => negb (Pandas.checknull v) && isinstance v [c_int; c_float]
  end.

(** A record all of whose values are clean. *)
Definition clean_record (rec : dict pyval) : Prop :=
  forall k v, getitem rec k = Some v -> clean v = true.

(** ** Parts of the tree [render] returns *)

Definition text_of (e : element) : option string :=
  match e with
  | Text s => Some s
  | _ => None
  end.

Definition column_list (e : element) : option (list column_desc) :=
  match e with
  | ColumnList cols => Some cols
  | _ => None
  end.

(** [tree["props"]["children"][1]["props"]["children"][0]]: the table. *)
Definition table_node (tree : element) : option element :=
  e ← field "props" tree;
  e ← field "children" e;
  e ← child 1 e;
  e ← field "props" e;
  e ← field "children" e;
  child 0 e.

Definition table_id (tree : element) : option string :=
  e ← table_node tree; e ← field "props" e; e ← field "id" e; text_of e.

Definition table_columns (tree : element) : option (list column_desc) :=
  e ← table_node tree; e ← field "props" e; e ← field "columns" e;
  column_list e.

(** [tree["props"]["children"][0]["props"]["children"][2]["props"]["content"]]:
    the counter at the right of the toolbar. *)
Definition toolbar_text (tree : element) : option string :=
  e ← field "props" tree;
  e ← field "children" e;
  e ← child 0 e;
  e ← field "props" e;
  e ← field "children" e;
  e ← child 2 e;
  e ← field "props" e;
  e ← field "content" e;
  text_of e.

(** ** Variants of an installation and of a page *)

(** The same installation with another [Table] component. *)
Definition replace_Table (E : env)
    (T : list string -> list (list pyval) -> bool -> result element) : env :=
  {| import_App := import_App E;
     CACAO_COMPONENTS :=
       match CACAO_COMPONENTS E with
       | Some C => Some {| PandasTablePlugin := PandasTablePlugin C;
                           Table := T |}
       | None => None
       end |}.

(** The same page with another mode. *)
Definition set_mode (m : string) (self : Viewer.PandasTablePage)
  : Viewer.PandasTablePage :=
  {| Viewer.dataframe := Viewer.dataframe self;
     Viewer.title := Viewer.title self;
     Viewer.mode := m;
     Viewer.plugin := Viewer.plugin self |}.

(** Whether [App()] fails on a host. *)
Definition App_failure (f : framework) : option exn :=
  match f with
  | Framework App_new _ _ => App_new
  end.

(** ** Readers that return *)

(** The library reader that serves an extension returns [df] on this
    file. *)
Inductive reader_returns (rd : Cli.readers) (p : Cli.path)
    (kwargs : dict Cli.kwval) (df : Pandas.DataFrame) : string -> Prop :=
| csv_returns :
    Cli.read_csv rd p kwargs = Ok df -> reader_returns rd p kwargs df ".csv"
| excel_returns ext :
    ext ∈ [".xlsx"; ".xls"] ->
    Cli.read_excel rd p kwargs = Ok df -> reader_returns rd p kwargs df ext
| json_returns :
    Cli.read_json rd p kwargs = Ok df -> reader_returns rd p kwargs df ".json"
| parquet_returns :
    Cli.read_parquet rd p kwargs = Ok df ->
    reader_returns rd p kwargs df ".parquet"
| tsv_returns ext :
    ext ∈ [".tsv"; ".tab"] ->
    getitem kwargs "sep" = None ->
    Cli.read_csv rd p (setitem kwargs "sep" (Cli.KStr Cli.tab)) = Ok df ->
    reader_returns rd p kwargs df ext
| pickle_returns ext :
    ext ∈ [".pkl"; ".pickle"] ->
    Cli.read_pickle rd p kwargs = Ok df -> reader_returns rd p kwargs df ext.

(** Induction over a host script together with the hosts of the calls
    it re-enters. *)
Scheme script_hosts_ind := Induction for script Sort Prop
  with host_scripts_ind := Induction for framework Sort Prop.

(** ** What a call may add to the process *)

(** From [w] to [w'] nothing was taken back: the lines printed, the
    windows opened and the pages served in [w] are still there, in front
    of what was added; and where the table components are not installed,
    every frame of the heap is as it was. *)
Definition grows (E : env) (w w' : world) : Prop :=
  stdout w `prefix_of` stdout w' /\
  stderr w `prefix_of` stderr w' /\
  windows w `prefix_of` windows w' /\
  served w `prefix_of` served w' /\
  (CACAO_COMPONENTS E = None -> Notions.keeps (heap w) (heap w')).

(** ** More concrete inputs *)

(** Readers interrupted from the keyboard. *)
Definition interrupted : exn :=
  {| exc_type := KeyboardInterrupt; exc_str := "" |}.

Definition interrupted_readers : Cli.readers :=
  {| Cli.read_csv := fun _ _ => Raise interrupted;
     Cli.read_excel := fun _ _ => Raise interrupted;
     Cli.read_json := fun _ _ => Raise interrupted;
     Cli.read_parquet := fun _ _ => Raise interrupted;
     Cli.read_pickle := fun _ _ => Raise interrupted |}.

(** [pd.DataFrame(index=[0, 1])]: two rows, no column. *)
Definition no_columns : Pandas.DataFrame :=
  {| Pandas.index := [PyInt 0; PyInt 1]; Pandas.columns := [] |}.

(** ** Repeated labels *)

(** The label occurs more than once among the columns. *)
Definition repeated (df : Pandas.DataFrame) (col : string) : Prop :=
  2 <= length (filter (fun c => Pandas.label c = col) (Pandas.columns df)).

(** Frames whose one repeated label is "dtype":
    [pd.DataFrame([[1, 2]], columns=['dtype', 'dtype'])] and the same
    without rows. *)
Definition dtype_twice : Pandas.DataFrame :=
  {| Pandas.index := [PyInt 0];
     Pandas.columns :=
       [Examples.column_of "dtype" Pandas.int64 [NpInt64 1];
        Examples.column_of "dtype" Pandas.int64 [NpInt64 2]] |}.

Definition dtype_twice_no_rows : Pandas.DataFrame :=
  {| Pandas.index := [];
     Pandas.columns :=
       [Examples.column_of "dtype" Pandas.object_ [];
        Examples.column_of "dtype" Pandas.object_ []] |}.

(** ** What a page shows of a frame *)

(** The data list has one record per row of the frame, in row order;
    the record of a row holds a value under the label of every column,
    and that value is the string "N/A" where the frame's cell is null. *)
Definition shows (df : Pandas.DataFrame) (rows : list (dict pyval)) : Prop :=
  length rows = length (Pandas.index df) /\
  forall i idx, Pandas.index df !! i = Some idx ->
    exists rec, rows !! i = Some rec /\
      forall j c, Pandas.columns df !! j = Some c ->
        exists v, getitem rec (Pandas.label c) = Some v /\
          (Pandas.checknull (Pandas.cells c i) = true -> v = PyStr "N/A").

(** What the route handler returned is a page of the frame: a display
    tree whose data list shows it. *)
Definition page_of (df : Pandas.DataFrame) (r : result element) : Prop :=
  exists tree rows,
    r = Ok tree /\ Notions.table_rows tree = Some rows /\ shows df rows.

End Probes.

(* ================================================================== *)
(** * Dictionaries *)
(* ================================================================== *)

Module DictFacts.
Import Py.

Section Dict.
Context {V : Type}.
Implicit Types (d : dict V) (k : string) (v : V).

Lemma getitem_setitem_eq d k v : getitem (setitem d k v) k = Some v.
Proof.
  induction d as [|[k' v'] d IH]; simpl.
  - by rewrite decide_True.
  - destruct (decide (k' = k)) as [->|Hne]; simpl.
    + by rewrite decide_True.
    + by rewrite decide_False.
Qed.

Lemma getitem_setitem_ne d k k' v :
  k <> k' -> getitem (setitem d k v) k' = getitem d k'.
Proof.
  intros Hne. induction d as [|[k0 v0] d IH]; simpl.
  - by rewrite decide_False.
  - destruct (decide (k0 = k)) as [->|H0]; simpl.
    + by rewrite !decide_False.
    + by rewrite IH.
Qed.

Lemma keys_setitem_new d k v : k ∉ keys d -> keys (setitem d k v) = (keys d ++ [k])%list.
Proof.
  unfold keys. induction d as [|[k0 v0] d IH]; csimpl; intros Hk; [done|].
  apply not_elem_of_cons in Hk as [Hne Hk].
  rewrite decide_False by congruence. csimpl. by rewrite IH.
Qed.

Lemma keys_setitem_old d k v : k ∈ keys d -> keys (setitem d k v) = keys d.
Proof.
  unfold keys. induction d as [|[k0 v0] d IH]; csimpl; intros Hk.
  - by apply elem_of_nil in Hk.
  - destruct (decide (k0 = k)) as [->|Hne]; csimpl; [done|].
    apply elem_of_cons in Hk as [->|Hk]; [done|]. by rewrite IH.
Qed.

Lemma getitem_Some_keys d k v : getitem d k = Some v -> k ∈ keys d.
Proof.
  unfold keys. induction d as [|[k0 v0] d IH]; csimpl; [done|].
  destruct (decide (k0 = k)) as [->|Hne]; intros H.
  - apply elem_of_cons; by left.
  - apply elem_of_cons; right; auto.
Qed.

End Dict.
End DictFacts.

Module LoopFacts.
Import Py Cacao Notions DictFacts.

Ltac run := unfold mbind, result_bind; cbn beta iota.

(** ** The conversion of one value *)

Lemma convert_scalar v :
  scalar v = true -> Viewer.convert (Pandas.Scalar v) = Ok (shown v).
Proof.
  intros Hs. unfold shown.
  destruct (Viewer.convert (Pandas.Scalar v)) eqn:H; [done|].
  exfalso.
  destruct v; try discriminate Hs;
    try match goal with f : pyfloat |- _ => destruct f end;
    simpl in H; discriminate.
Qed.

(** ** The filled copy *)

Lemma fill_column_label v n c :
  Pandas.label (Pandas.fill_column v n c) = Pandas.label c.
Proof.
  unfold Pandas.fill_column.
  destruct (Pandas.dtype c); try done; by destruct (Pandas.has_null n c).
Qed.

Lemma filled_frame_labels df :
  Pandas.labels (filled_frame df) = Pandas.labels df.
Proof.
  unfold Pandas.labels, filled_frame; simpl.
  rewrite <- list_fmap_compose. apply list_fmap_ext.
  intros j c _. apply fill_column_label.
Qed.

Lemma filled_frame_index df : Pandas.index (filled_frame df) = Pandas.index df.
Proof. done. Qed.

Lemma filled_frame_shape df : Pandas.shape (filled_frame df) = Pandas.shape df.
Proof. unfold Pandas.shape, filled_frame. simpl. by rewrite length_fmap. Qed.

Lemma boxed_labels df : Pandas.label <$> Pandas.boxed df = Pandas.labels df.
Proof.
  unfold Pandas.boxed, Pandas.labels. rewrite <- list_fmap_compose.
  by apply list_fmap_ext.
Qed.

Lemma seen_labels df :
  Pandas.label <$> Pandas.boxed (filled_frame df) = Pandas.labels df.
Proof. by rewrite boxed_labels, filled_frame_labels. Qed.

(** [fillna] returns the filled frame, or raises. *)
Lemma fillna_Ok df fdf :
  Pandas.fillna (PyStr "N/A") (Pandas.copy df) = Ok fdf -> fdf = filled_frame df.
Proof.
  unfold Pandas.fillna. cbn [Pandas.copy Pandas.columns Pandas.index].
  destruct (existsb _ _); [done|]. by intros [= <-].
Qed.

Lemma basic_accepted df :
  basic df = true ->
  existsb (Pandas.refuses (PyStr "N/A")) (Pandas.columns df) = false.
Proof.
  unfold basic. intros Hbasic.
  apply not_true_is_false. intros (c & Hc & Href)%existsb_exists.
  rewrite forallb_forall in Hbasic.
  apply Hbasic, andb_prop in Hc as [Hnumpy _].
  unfold Pandas.refuses in Href. by destruct (Pandas.dtype c).
Qed.

Lemma fillna_basic df :
  basic df = true ->
  Pandas.fillna (PyStr "N/A") (Pandas.copy df) = Ok (filled_frame df).
Proof.
  intros Hbasic. unfold Pandas.fillna.
  cbn [Pandas.copy Pandas.columns Pandas.index].
  by rewrite basic_accepted.
Qed.

Lemma basic_scalar df c i :
  basic df = true -> c ∈ Pandas.columns df ->
  (i < length (Pandas.index df))%nat ->
  scalar (Pandas.cells c i) = true.
Proof.
  unfold basic. intros Hbasic Hc Hi.
  rewrite forallb_forall in Hbasic.
  apply list_elem_of_In, Hbasic, andb_prop in Hc as [_ Hcells].
  rewrite forallb_forall in Hcells. apply Hcells.
  apply in_seq. lia.
Qed.

Lemma scalar_to_object v : scalar (Pandas.to_object v) = scalar v.
Proof. by destruct v. Qed.

Lemma scalar_box rd d v : scalar (Pandas.box rd d v) = scalar v.
Proof. destruct rd, d, v; reflexivity. Qed.

Lemma box_str rd d s : Pandas.box rd d (PyStr s) = PyStr s.
Proof. by destruct rd, d. Qed.

Lemma has_null_at n c i :
  (i < n)%nat -> Pandas.checknull (Pandas.cells c i) = true ->
  Pandas.has_null n c = true.
Proof.
  intros Hi Hnull. unfold Pandas.has_null. apply existsb_exists.
  exists i. split; [|done]. apply in_seq. lia.
Qed.

(** The column the loop sees in place of the column at position [j]: the
    same label, "N/A" where the cell was null, a scalar where the cell
    was one. *)
Lemma seen_column df j c :
  Pandas.columns df !! j = Some c ->
  exists c',
    Pandas.boxed (filled_frame df) !! j = Some c' /\
    Pandas.label c' = Pandas.label c /\
    (forall i, (i < length (Pandas.index df))%nat ->
       Pandas.checknull (Pandas.cells c i) = true ->
       Pandas.cells c' i = PyStr "N/A") /\
    (forall i, scalar (Pandas.cells c i) = true ->
       scalar (Pandas.cells c' i) = true).
Proof.
  intros Hj. unfold Pandas.boxed, filled_frame.
  cbn [Pandas.columns Pandas.index].
  rewrite !list_lookup_fmap, Hj. cbn [fmap option_fmap option_map].
  eexists. split; [reflexivity|]. cbn [Pandas.label Pandas.cells Pandas.dtype].
  split; [apply fill_column_label|].
  set (rd := Pandas.common _). clearbody rd.
  unfold Pandas.fill_column. split.
  - intros i Hi Hnull.
    destruct (Pandas.dtype c) eqn:Hd;
      try (rewrite (has_null_at _ _ _ Hi Hnull));
      cbn [Pandas.cells Pandas.dtype]; rewrite Hnull; apply box_str.
  - intros i Hs. rewrite scalar_box.
    destruct (Pandas.dtype c) eqn:Hd;
      try destruct (Pandas.has_null _ c);
      cbn [Pandas.cells]; try done;
      destruct (Pandas.checknull (Pandas.cells c i)); try done;
      by rewrite ?scalar_to_object.
Qed.

Lemma seen_lookup df j c' :
  Pandas.boxed (filled_frame df) !! j = Some c' ->
  exists c, Pandas.columns df !! j = Some c.
Proof.
  unfold Pandas.boxed, filled_frame. cbn [Pandas.columns].
  rewrite !list_lookup_fmap.
  destruct (Pandas.columns df !! j) as [c|]; [eauto|done].
Qed.

Lemma seen_scalar df c' i :
  basic df = true -> c' ∈ Pandas.boxed (filled_frame df) ->
  (i < length (Pandas.index df))%nat ->
  scalar (Pandas.cells c' i) = true.
Proof.
  intros Hbasic [j Hj]%list_elem_of_lookup Hi.
  destruct (seen_lookup df j c' Hj) as [c Hc].
  destruct (seen_column df j c Hc) as (c'' & Hj' & _ & _ & Hscalar).
  rewrite Hj in Hj'. injection Hj' as <-.
  apply Hscalar. eapply basic_scalar; [done| |done].
  apply list_elem_of_lookup. eauto.
Qed.

(** ** The loops on columns with distinct labels *)

Lemma filter_none {A} (P : A -> Prop) `{!forall x, Decision (P x)} (l : list A) :
  (forall x, x ∈ l -> ~ P x) -> filter P l = [].
Proof.
  induction l as [|a l IH]; intros Hall; [done|].
  rewrite filter_cons_False by (apply Hall; left).
  apply IH. intros x Hx. apply Hall. by right.
Qed.

Lemma filter_label_unique (cs : list Pandas.column) c :
  NoDup (Pandas.label <$> cs) -> c ∈ cs ->
  filter (fun c' => Pandas.label c' = Pandas.label c) cs = [c].
Proof.
  induction cs as [|a cs IH]; csimpl; intros Hnd Hc.
  - by apply elem_of_nil in Hc.
  - apply NoDup_cons in Hnd as [Ha Hnd].
    apply elem_of_cons in Hc as [->|Hc].
    + rewrite filter_cons_True by done. f_equal.
      apply filter_none. intros x Hx Heq. apply Ha.
      rewrite <- Heq. by apply list_elem_of_fmap_2.
    + rewrite filter_cons_False; [by apply IH|].
      intros Heq. apply Ha. rewrite Heq. by apply list_elem_of_fmap_2.
Qed.

Lemma filter_row (cs : list Pandas.column) i col :
  filter (fun kv : string * pyval => fst kv = col)
         ((fun c => (Pandas.label c, Pandas.cells c i)) <$> cs)
  = (fun c => (Pandas.label c, Pandas.cells c i))
      <$> filter (fun c => Pandas.label c = col) cs.
Proof.
  induction cs as [|a cs IH]; csimpl; [done|].
  destruct (decide (Pandas.label a = col)) as [Heq|Hne].
  - rewrite !filter_cons_True by done. csimpl. by rewrite IH.
  - by rewrite !filter_cons_False.
Qed.

Lemma Series_getitem_unique (cs : list Pandas.column) i c :
  NoDup (Pandas.label <$> cs) -> c ∈ cs ->
  Pandas.Series_getitem ((fun c => (Pandas.label c, Pandas.cells c i)) <$> cs)
                        (Pandas.label c)
  = Ok (Pandas.Scalar (Pandas.cells c i)).
Proof.
  intros Hnd Hc. unfold Pandas.Series_getitem.
  by rewrite filter_row, filter_label_unique.
Qed.

(** Item access that returns a scalar returns a cell of the row. *)
Lemma Series_getitem_scalar (cs : list Pandas.column) i col v :
  Pandas.Series_getitem ((fun c => (Pandas.label c, Pandas.cells c i)) <$> cs)
                        col
  = Ok (Pandas.Scalar v) ->
  exists c, c ∈ cs /\ Pandas.label c = col /\ Pandas.cells c i = v.
Proof.
  unfold Pandas.Series_getitem. rewrite filter_row.
  destruct (filter (fun c => Pandas.label c = col) cs) as [|c [|c2 rest]]
    eqn:Hf; csimpl; try done.
  intros [= <-]. exists c.
  assert (Hc : c ∈ filter (fun c => Pandas.label c = col) cs)
    by (rewrite Hf; left).
  apply list_elem_of_filter in Hc as [Hl Hc]. done.
Qed.

Lemma getitem_dtype_unique df c :
  NoDup (Pandas.labels df) -> c ∈ Pandas.columns df ->
  Pandas.getitem_dtype df (Pandas.label c)
  = Ok (Pandas.DtypeName (Pandas.dtype_str (Pandas.dtype c))).
Proof.
  intros Hnd Hc. unfold Pandas.getitem_dtype.
  by rewrite filter_label_unique.
Qed.

(** The inner loop over a part [cs] of the columns. *)
Lemma row_loop_columns (all cs : list Pandas.column) i row_data :
  NoDup (Pandas.label <$> all) -> cs ⊆ all ->
  (forall c, c ∈ cs -> scalar (Pandas.cells c i) = true) ->
  Viewer.row_loop ((fun c => (Pandas.label c, Pandas.cells c i)) <$> all)
                  (Pandas.label <$> cs) row_data
  = Ok (fold_left (put_cell i) cs row_data).
Proof.
  intros Hnd. revert row_data.
  induction cs as [|c cs IH]; intros row_data Hsub Hscalar; csimpl; [done|].
  rewrite Series_getitem_unique; [|done|apply Hsub; left].
  run. rewrite convert_scalar by (apply Hscalar; left). run. apply IH.
  - intros x Hx. apply Hsub. by right.
  - intros x Hx. apply Hscalar. by right.
Qed.

Lemma column_descs_columns df (cs : list Pandas.column) :
  NoDup (Pandas.labels df) -> cs ⊆ Pandas.columns df ->
  Viewer.column_descs df (Pandas.label <$> cs)
  = Ok ((fun c => {| cd_key := Pandas.label c; cd_title := Pandas.label c;
                     cd_dataType :=
                       Pandas.DtypeName (Pandas.dtype_str (Pandas.dtype c)) |})
        <$> cs).
Proof.
  intros Hnd. induction cs as [|c cs IH]; intros Hsub; csimpl; [done|].
  rewrite getitem_dtype_unique; [|done|apply Hsub; left]. run.
  rewrite IH; [done|]. intros x Hx. apply Hsub. by right.
Qed.

(** The outer loop, the rows taken at the positions [g 0], [g 1], ... *)
Lemma rows_loop_rows (all : list Pandas.column) (idxs : list pyval)
    (g : nat -> nat) acc :
  NoDup (Pandas.label <$> all) ->
  (forall k c, (k < length idxs)%nat -> c ∈ all ->
     scalar (Pandas.cells c (g k)) = true) ->
  Viewer.rows_loop
    (imap (fun i idx =>
             (idx, (fun c => (Pandas.label c, Pandas.cells c (g i))) <$> all))
          idxs)
    (Pandas.label <$> all) acc
  = Ok (acc ++ imap (fun i idx => record_of all (g i) idx) idxs)%list.
Proof.
  intros Hnd. revert g acc.
  induction idxs as [|idx idxs IH]; intros g acc Hscalar; simpl.
  - by rewrite app_nil_r.
  - rewrite row_loop_columns; [|done|done|].
    2:{ intros c Hc. apply (Hscalar 0%nat); [simpl; lia|done]. }
    run. rewrite (IH (g ∘ S)).
    + by rewrite <- app_assoc.
    + intros k c Hk Hc. apply (Hscalar (S k)); [simpl; lia|done].
Qed.

(** The same loops when all that is known is that they returned. *)
Lemma convert_shown v x :
  Viewer.convert (Pandas.Scalar v) = Ok x -> x = shown v.
Proof. unfold shown. by intros ->. Qed.

Lemma row_loop_returned (all cs : list Pandas.column) i : forall row_data d,
  NoDup (Pandas.label <$> all) -> cs ⊆ all ->
  Viewer.row_loop ((fun c => (Pandas.label c, Pandas.cells c i)) <$> all)
                  (Pandas.label <$> cs) row_data
  = Ok d ->
  d = fold_left (put_cell i) cs row_data.
Proof.
  induction cs as [|c cs IH]; intros row_data d Hnd Hsub;
    cbn [fmap list_fmap Viewer.row_loop fold_left].
  - by intros [= <-].
  - rewrite Series_getitem_unique; [|done|apply Hsub; left]. run.
    destruct (Viewer.convert _) as [x|] eqn:Hx; [|done]. run.
    apply convert_shown in Hx as ->. intros Hrest.
    apply IH; [done| |done]. intros y Hy. apply Hsub. by right.
Qed.

Lemma rows_loop_returned (all : list Pandas.column) (idxs : list pyval) :
  forall (g : nat -> nat) acc data,
  NoDup (Pandas.label <$> all) ->
  Viewer.rows_loop
    (imap (fun i idx =>
             (idx, (fun c => (Pandas.label c, Pandas.cells c (g i))) <$> all))
          idxs)
    (Pandas.label <$> all) acc
  = Ok data ->
  data = (acc ++ imap (fun i idx => record_of all (g i) idx) idxs)%list.
Proof.
  induction idxs as [|idx idxs IH]; intros g acc data Hnd; simpl.
  - intros [= <-]. by rewrite app_nil_r.
  - destruct (Viewer.row_loop _ _ _) as [d|] eqn:Hrow; [|done]. run.
    apply row_loop_returned in Hrow; [|done|done]. subst d.
    intros Hrest. apply (IH (g ∘ S)) in Hrest; [|done].
    rewrite Hrest. by rewrite <- app_assoc.
Qed.

(** ** The record built for a row *)

Lemma fold_keys (cs : list Pandas.column) i (d : dict pyval) :
  NoDup (Pandas.label <$> cs) ->
  (forall c, c ∈ cs -> Pandas.label c ∉ keys d) ->
  keys (fold_left (put_cell i) cs d) = (keys d ++ (Pandas.label <$> cs))%list.
Proof.
  revert d. induction cs as [|c cs IH]; intros d Hnd Hfresh; csimpl.
  - by rewrite app_nil_r.
  - apply NoDup_cons in Hnd as [Hc Hnd].
    rewrite IH; [|done|].
    + unfold put_cell. rewrite keys_setitem_new by (apply Hfresh; left).
      by rewrite <- app_assoc.
    + intros c' Hc'. unfold put_cell.
      rewrite keys_setitem_new by (apply Hfresh; left).
      intros [Hin|Hin]%elem_of_app.
      * by apply (Hfresh c'); [right|].
      * apply list_elem_of_singleton in Hin. apply Hc. rewrite <- Hin.
        by apply list_elem_of_fmap_2.
Qed.

Lemma fold_getitem_other (cs : list Pandas.column) i (d : dict pyval) k :
  k ∉ Pandas.label <$> cs ->
  getitem (fold_left (put_cell i) cs d) k = getitem d k.
Proof.
  revert d. induction cs as [|c cs IH]; intros d Hk; csimpl; [done|].
  csimpl in Hk. apply not_elem_of_cons in Hk as [Hne Hk].
  rewrite IH by done. unfold put_cell. by rewrite getitem_setitem_ne.
Qed.

Lemma fold_getitem_cell (cs : list Pandas.column) i (d : dict pyval) c :
  NoDup (Pandas.label <$> cs) -> c ∈ cs ->
  getitem (fold_left (put_cell i) cs d) (Pandas.label c)
  = Some (shown (Pandas.cells c i)).
Proof.
  revert d. induction cs as [|a cs IH]; intros d Hnd Hc; csimpl.
  - by apply elem_of_nil in Hc.
  - csimpl in Hnd. apply NoDup_cons in Hnd as [Ha Hnd].
    apply elem_of_cons in Hc as [->|Hc].
    + rewrite fold_getitem_other by done. unfold put_cell.
      apply getitem_setitem_eq.
    + by apply IH.
Qed.

Lemma record_of_keys cs i idx :
  NoDup (Pandas.label <$> cs) -> "_index" ∉ Pandas.label <$> cs ->
  keys (record_of cs i idx) = "_index" :: (Pandas.label <$> cs).
Proof.
  intros Hnd Hidx. unfold record_of.
  rewrite fold_keys; [done|done|].
  intros c Hc Hin. apply list_elem_of_singleton in Hin. simpl in Hin.
  apply Hidx. rewrite <- Hin. by apply list_elem_of_fmap_2.
Qed.

Lemma record_of_index cs i idx :
  "_index" ∉ Pandas.label <$> cs ->
  getitem (record_of cs i idx) "_index" = Some (PyStr (py_str idx)).
Proof.
  intros Hidx. unfold record_of.
  by rewrite fold_getitem_other.
Qed.

Lemma record_of_cell cs i idx c :
  NoDup (Pandas.label <$> cs) -> c ∈ cs ->
  getitem (record_of cs i idx) (Pandas.label c)
  = Some (shown (Pandas.cells c i)).
Proof. intros. by apply fold_getitem_cell. Qed.

(** ** The heap only grows *)

Lemma keeps_refl h : keeps h h.
Proof. by intros l df. Qed.

Lemma keeps_trans h1 h2 h3 : keeps h1 h2 -> keeps h2 h3 -> keeps h1 h3.
Proof. intros H12 H23 l df Hl. auto. Qed.

Lemma alloc_keeps df h : keeps h (snd (alloc df h)).
Proof.
  intros l d Hl. unfold alloc. simpl.
  rewrite lookup_insert_ne; [done|].
  intros <-. pose proof (is_fresh (dom h)) as Hfresh.
  apply Hfresh. apply elem_of_dom. eauto.
Qed.

(** ** [_prepare_table_data] step by step *)

Lemma prepare_unfold self w df :
  heap w !! Viewer.dataframe self = Some df ->
  Viewer._prepare_table_data self w
  = match Pandas.fillna (PyStr "N/A") (Pandas.copy df) with
    | Raise e => (Raise e, set_heap (copied df (heap w)) w)
    | Ok _ => (Viewer.table_of (filled_frame df),
               set_heap (prepared df (heap w)) w)
    end.
Proof.
  intros Hdf. unfold Viewer._prepare_table_data, deref. rewrite Hdf.
  unfold prepared, copied, alloc. cbn [fst snd].
  destruct (Pandas.fillna _ _) as [fdf|e] eqn:Hfill; [|done].
  by rewrite (fillna_Ok _ _ Hfill).
Qed.

Lemma prepare_missing self w :
  heap w !! Viewer.dataframe self = None ->
  snd (Viewer._prepare_table_data self w) = w.
Proof.
  intros Hdf. unfold Viewer._prepare_table_data, deref. by rewrite Hdf.
Qed.

Lemma copied_keeps df h : keeps h (copied df h).
Proof. apply alloc_keeps. Qed.

Lemma prepared_keeps df h : keeps h (prepared df h).
Proof. eapply keeps_trans; apply alloc_keeps. Qed.

(** When the call returns, the frame was filled and the loops ran on the
    filled frame. *)
Lemma prepare_inv self w td w' :
  Viewer._prepare_table_data self w = (Ok td, w') ->
  exists df,
    heap w !! Viewer.dataframe self = Some df /\
    Viewer.table_of (filled_frame df) = Ok td /\
    w' = set_heap (prepared df (heap w)) w /\
    Pandas.fillna (PyStr "N/A") (Pandas.copy df) = Ok (filled_frame df).
Proof.
  intros Hrun.
  destruct (heap w !! Viewer.dataframe self) as [df|] eqn:Hdf.
  - rewrite (prepare_unfold _ _ _ Hdf) in Hrun.
    destruct (Pandas.fillna _ _) as [fdf|e] eqn:Hfill; [|done].
    injection Hrun as Htd <-. exists df.
    split; [done|]. split; [done|]. split; [done|].
    rewrite Hfill. f_equal. exact (fillna_Ok _ _ Hfill).
  - unfold Viewer._prepare_table_data, deref in Hrun.
    rewrite Hdf in Hrun. done.
Qed.

Lemma table_of_inv df td :
  Viewer.table_of df = Ok td ->
  exists cols rows,
    Viewer.column_descs df (Pandas.labels df) = Ok cols /\
    Viewer.rows_loop (Pandas.iterrows df) (Pandas.labels df) [] = Ok rows /\
    td = {| Viewer.columns := cols; Viewer.data := rows;
            Viewer.totalRows := Pandas.len df;
            Viewer.shape := Pandas.shape df |}.
Proof.
  unfold Viewer.table_of.
  destruct (Viewer.column_descs _ _) as [cols|]; [|done]. run.
  destruct (Viewer.rows_loop _ _ _) as [rows|]; [|done]. run.
  intros [= <-]. by exists cols, rows.
Qed.

Lemma column_descs_keys df ls cols :
  Viewer.column_descs df ls = Ok cols ->
  cd_key <$> cols = ls /\ cd_title <$> cols = ls.
Proof.
  revert cols. induction ls as [|col ls IH]; intros cols; csimpl.
  - by intros [= <-].
  - destruct (Pandas.getitem_dtype df col); [|done]. run.
    destruct (Viewer.column_descs df ls) as [ds|]; [|done]. run.
    intros [= <-]. destruct (IH ds eq_refl) as [Hk Ht]. csimpl.
    by rewrite Hk, Ht.
Qed.

Lemma rows_loop_length rows cols : forall acc data,
  Viewer.rows_loop rows cols acc = Ok data ->
  length data = (length acc + length rows)%nat.
Proof.
  induction rows as [|[idx row] rows IH]; intros acc data; simpl.
  - intros [= <-]. lia.
  - destruct (Viewer.row_loop _ _ _) as [row_data|]; [|done]. run.
    intros Hrest. rewrite (IH _ _ Hrest), length_app. simpl. lia.
Qed.

(** ** [_prepare_table_data] on a basic frame with distinct labels *)

Lemma table_of_basic df :
  basic df = true ->
  NoDup (Pandas.labels df) ->
  Viewer.table_of (filled_frame df)
  = Ok {| Viewer.columns :=
            (fun c => {| cd_key := Pandas.label c;
                         cd_title := Pandas.label c;
                         cd_dataType :=
                           Pandas.DtypeName
                             (Pandas.dtype_str (Pandas.dtype c)) |})
            <$> Pandas.columns (filled_frame df);
          Viewer.data :=
            imap (fun i idx =>
                    record_of (Pandas.boxed (filled_frame df)) i idx)
                 (Pandas.index df);
          Viewer.totalRows := length (Pandas.index df);
          Viewer.shape := (length (Pandas.index df),
                           length (Pandas.columns df)) |}.
Proof.
  intros Hbasic Hnd. unfold Viewer.table_of.
  assert (Hnd' : NoDup (Pandas.label <$> Pandas.boxed (filled_frame df))).
  { by rewrite seen_labels. }
  pose proof (column_descs_columns (filled_frame df)
                (Pandas.columns (filled_frame df))) as Hcols.
  pose proof (rows_loop_rows (Pandas.boxed (filled_frame df))
                (Pandas.index df) id [] Hnd') as Hrows.
  fold (Pandas.labels (filled_frame df)) in Hcols.
  rewrite Hcols; [|by rewrite filled_frame_labels|done].
  run. unfold Pandas.iterrows. rewrite filled_frame_index.
  rewrite seen_labels, <- (filled_frame_labels df) in Hrows.
  unfold id in Hrows. rewrite Hrows.
  - run. simpl. unfold Pandas.len.
    rewrite filled_frame_shape. done.
  - intros k c Hk Hc. by apply (seen_scalar df).
Qed.

Lemma prepare_table_data_spec self w df :
  heap w !! Viewer.dataframe self = Some df ->
  basic df = true ->
  NoDup (Pandas.labels df) ->
  exists h,
    keeps (heap w) h /\
    Viewer._prepare_table_data self w =
      (Ok {| Viewer.columns :=
               (fun c => {| cd_key := Pandas.label c;
                            cd_title := Pandas.label c;
                            cd_dataType :=
                              Pandas.DtypeName
                                (Pandas.dtype_str (Pandas.dtype c)) |})
               <$> Pandas.columns (filled_frame df);
             Viewer.data :=
               imap (fun i idx =>
                       record_of (Pandas.boxed (filled_frame df)) i idx)
                    (Pandas.index df);
             Viewer.totalRows := length (Pandas.index df);
             Viewer.shape := (length (Pandas.index df),
                              length (Pandas.columns df)) |},
       set_heap h w).
Proof.
  intros Hdf Hbasic Hnd.
  exists (prepared df (heap w)). split; [apply prepared_keeps|].
  rewrite (prepare_unfold _ _ _ Hdf), fillna_basic by done.
  by rewrite table_of_basic.
Qed.

End LoopFacts.

(* ================================================================== *)
(** * Frames with repeated labels *)
(* ================================================================== *)

Module LabelFacts.
Import Py Cacao Notions DictFacts LoopFacts Probes.

(** ** Repeated labels *)

Lemma filter_label_nonempty (cs : list Pandas.column) col :
  col ∈ Pandas.label <$> cs ->
  filter (fun c => Pandas.label c = col) cs <> [].
Proof.
  intros (c & -> & Hc)%list_elem_of_fmap Hnil.
  by apply (filter_nil_not_elem_of _ _ c Hnil).
Qed.

Lemma filter_fmap_label (g : Pandas.column -> Pandas.column)
    (cs : list Pandas.column) col :
  (forall c, Pandas.label (g c) = Pandas.label c) ->
  filter (fun c => Pandas.label c = col) (g <$> cs)
  = g <$> filter (fun c => Pandas.label c = col) cs.
Proof.
  intros Hg. induction cs as [|a cs IH]; csimpl; [done|].
  destruct (decide (Pandas.label a = col)).
  - rewrite !filter_cons_True by (by rewrite ?Hg). csimpl. by rewrite IH.
  - by rewrite !filter_cons_False by (by rewrite ?Hg).
Qed.

Lemma filled_frame_repeated df col :
  repeated (filled_frame df) col <-> repeated df col.
Proof.
  unfold repeated, filled_frame. cbn [Pandas.columns].
  rewrite filter_fmap_label by (intros c; apply fill_column_label).
  by rewrite length_fmap.
Qed.

Lemma seen_filter df col :
  length (filter (fun c => Pandas.label c = col)
                 (Pandas.boxed (filled_frame df)))
  = length (filter (fun c => Pandas.label c = col) (Pandas.columns df)).
Proof.
  unfold Pandas.boxed. rewrite filter_fmap_label by done.
  rewrite length_fmap. unfold filled_frame. cbn [Pandas.columns].
  rewrite filter_fmap_label by (intros c; apply fill_column_label).
  by rewrite length_fmap.
Qed.

(** A label other than "dtype" that occurs twice stops the column
    descriptors. *)
Lemma column_descs_repeated df ls :
  (forall col, col ∈ ls -> col ∈ Pandas.labels df) ->
  (exists col, col ∈ ls /\ col <> "dtype" /\ repeated df col) ->
  Viewer.column_descs df ls = Raise no_dtype.
Proof.
  unfold repeated.
  induction ls as [|col ls IH]; intros Hin (col' & Hcol' & Hne' & Hlen).
  - by apply elem_of_nil in Hcol'.
  - cbn [Viewer.column_descs]. unfold Pandas.getitem_dtype.
    pose proof (filter_label_nonempty (Pandas.columns df) col
                  (Hin col ltac:(left))) as Hne.
    assert (Htail : col <> col' ->
              Viewer.column_descs df ls = Raise no_dtype).
    { intros Hdiff. apply IH.
      - intros x Hx. apply Hin. by right.
      - exists col'. split; [|done].
        apply elem_of_cons in Hcol' as [->|?]; done. }
    destruct (filter (fun c => Pandas.label c = col) (Pandas.columns df))
      as [|c1 [|c2 rest]] eqn:Hf; [done| |].
    + run. rewrite Htail; [done|].
      intros <-. rewrite Hf in Hlen. simpl in Hlen. lia.
    + destruct (bool_decide (col = "dtype")) eqn:Hd; [|done].
      apply bool_decide_eq_true in Hd. run.
      rewrite Htail; [done|]. by intros <-.
Qed.

(** When "dtype" is the one label that may occur twice, the column
    descriptors are built. *)
Lemma column_descs_dtype_only df ls :
  (forall col, col ∈ ls -> col ∈ Pandas.labels df) ->
  (forall col, repeated df col -> col = "dtype") ->
  exists cols, Viewer.column_descs df ls = Ok cols.
Proof.
  unfold repeated. intros Hin Honly.
  induction ls as [|col ls IH]; [by eexists|].
  cbn [Viewer.column_descs]. unfold Pandas.getitem_dtype.
  pose proof (filter_label_nonempty (Pandas.columns df) col
                (Hin col ltac:(left))) as Hne.
  destruct IH as [cols Hcols].
  { intros x Hx. apply Hin. by right. }
  pose proof (Honly col) as Hcol.
  destruct (filter (fun c => Pandas.label c = col) (Pandas.columns df))
    as [|c1 [|c2 rest]] eqn:Hf; [done| |].
  - run. rewrite Hcols. by eexists.
  - rewrite bool_decide_true by (apply Hcol; simpl; lia).
    run. rewrite Hcols. by eexists.
Qed.

(** A row of a frame in which "dtype" occurs twice, and no other label
    does, stops the inner loop at the first "dtype": item access returns
    a series there. *)
Lemma row_loop_repeated_dtype (all cs : list Pandas.column) i :
  forall row_data,
  cs ⊆ all ->
  (2 <= length (filter (fun c => Pandas.label c = "dtype") all)) ->
  (forall col,
     2 <= length (filter (fun c => Pandas.label c = col) all) ->
     col = "dtype") ->
  (forall c, c ∈ all -> scalar (Pandas.cells c i) = true) ->
  "dtype" ∈ Pandas.label <$> cs ->
  Viewer.row_loop ((fun c => (Pandas.label c, Pandas.cells c i)) <$> all)
                  (Pandas.label <$> cs) row_data
  = Raise Pandas.ambiguous_truth.
Proof.
  intros row_data Hsub Htwice Honly Hscalar. revert row_data.
  induction cs as [|c cs IH]; intros row_data Hin; csimpl.
  - by apply elem_of_nil in Hin.
  - unfold Pandas.Series_getitem. rewrite filter_row.
    destruct (decide (Pandas.label c = "dtype")) as [Hc|Hc].
    + rewrite Hc.
      destruct (filter (fun c0 => Pandas.label c0 = "dtype") all)
        as [|c1 [|c2 rest]]; simpl in Htwice; try lia.
      reflexivity.
    + assert (Hcall : c ∈ all) by (apply Hsub; left).
      pose proof (filter_label_nonempty all (Pandas.label c)
                    (list_elem_of_fmap_2 _ _ _ Hcall)) as Hne.
      pose proof (Honly (Pandas.label c)) as Hone.
      destruct (filter (fun c0 => Pandas.label c0 = Pandas.label c) all)
        as [|c1 [|c2 rest]] eqn:Hf; [done| |].
      2:{ exfalso. apply Hc, Hone. simpl. lia. }
      assert (Hc1 : c1 ∈ all).
      { assert (H1 : c1 ∈ filter (fun c0 => Pandas.label c0 = Pandas.label c)
                                 all) by (rewrite Hf; left).
        by apply list_elem_of_filter in H1 as [_ ?]. }
      cbn [fmap list_fmap]. run.
      rewrite convert_scalar by (by apply Hscalar). run.
      apply IH.
      * intros x Hx. apply Hsub. by right.
      * csimpl in Hin. apply elem_of_cons in Hin as [Heq|?]; [|done].
        by rewrite <- Heq in Hc.
Qed.

Lemma not_NoDup_repeated (cs : list Pandas.column) :
  ~ NoDup (Pandas.label <$> cs) ->
  exists col, col ∈ Pandas.label <$> cs /\
    2 <= length (filter (fun c => Pandas.label c = col) cs).
Proof.
  induction cs as [|a cs IH]; csimpl; intros Hdup.
  - destruct Hdup. constructor.
  - destruct (decide (Pandas.label a ∈ Pandas.label <$> cs)) as [Hin|Hout].
    + exists (Pandas.label a). split; [left|].
      rewrite filter_cons_True by done. simpl.
      pose proof (filter_label_nonempty cs _ Hin) as Hne.
      destruct (filter _ cs); [done|simpl; lia].
    + destruct IH as (col & Hcol & Hlen).
      { intros Hnd. apply Hdup. by apply NoDup_cons. }
      exists col. split; [by right|].
      destruct (decide (Pandas.label a = col)).
      * rewrite filter_cons_True by done. simpl. lia.
      * by rewrite filter_cons_False.
Qed.

Lemma repeated_is_label df col :
  repeated df col -> col ∈ Pandas.labels df.
Proof.
  unfold repeated. intros Hlen.
  destruct (filter (fun c => Pandas.label c = col) (Pandas.columns df))
    as [|c rest] eqn:Hf; [simpl in Hlen; lia|].
  assert (Hc : c ∈ filter (fun c => Pandas.label c = col) (Pandas.columns df))
    by (rewrite Hf; left).
  apply list_elem_of_filter in Hc as [<- Hc].
  by apply list_elem_of_fmap_2.
Qed.

(** A row of a frame in which "dtype" occurs twice never gets through the
    inner loop: at the first "dtype", if not before, item access returns
    a series and the test of [pd.isna] raises. *)
Lemma row_loop_repeated_raises (all : list Pandas.column) i cols :
  2 <= length (filter (fun c => Pandas.label c = "dtype") all) ->
  "dtype" ∈ cols ->
  forall d d',
    Viewer.row_loop ((fun c => (Pandas.label c, Pandas.cells c i)) <$> all)
                    cols d
    <> Ok d'.
Proof.
  intros Htwice. induction cols as [|col cols IH]; intros Hin d d'.
  - by apply elem_of_nil in Hin.
  - cbn [Viewer.row_loop].
    destruct (decide (col = "dtype")) as [->|Hne].
    + unfold Pandas.Series_getitem. rewrite filter_row.
      destruct (filter (fun c => Pandas.label c = "dtype") all)
        as [|c1 [|c2 rest]]; simpl in Htwice; try lia.
      done.
    + destruct (Pandas.Series_getitem _ col) as [value|]; [|done]. run.
      destruct (Viewer.convert value) as [x|]; [|done]. run.
      apply IH. apply elem_of_cons in Hin as [?|?]; done.
Qed.

(** The body of [_prepare_table_data] returns on a frame with rows only
    when the labels are distinct. *)
Lemma table_of_labels df td :
  Viewer.table_of df = Ok td ->
  Pandas.index df <> [] ->
  NoDup (Pandas.labels df).
Proof.
  intros Htable Hrows.
  destruct (decide (NoDup (Pandas.labels df))) as [|Hdup]; [done|]. exfalso.
  destruct (not_NoDup_repeated _ Hdup) as (col & Hcol & Hlen).
  destruct (table_of_inv _ _ Htable) as (cols & rows & Hcols & Hloop & _).
  destruct (decide (col = "dtype")) as [->|Hne].
  - unfold Pandas.iterrows in Hloop.
    destruct (Pandas.index df) as [|idx idxs]; [done|].
    cbn [imap Viewer.rows_loop] in Hloop.
    destruct (Viewer.row_loop _ _ _) as [d|] eqn:Hrow; [|done].
    eapply row_loop_repeated_raises in Hrow; [done| |done].
    unfold Pandas.boxed. rewrite filter_fmap_label by done.
    by rewrite length_fmap.
  - rewrite column_descs_repeated in Hcols; [done|done|].
    by exists col.
Qed.

(** What is known of the data list once [_prepare_table_data] has
    returned: [fillna] returned, there is one record per row, and if
    there are rows the labels are distinct and the record of row [i] is
    built from the columns of the filled frame as its rows hold them. *)
Lemma prepare_returned self w df td w' :
  heap w !! Viewer.dataframe self = Some df ->
  Viewer._prepare_table_data self w = (Ok td, w') ->
  Pandas.fillna (PyStr "N/A") (Pandas.copy df) = Ok (filled_frame df) /\
  length (Viewer.data td) = length (Pandas.index df) /\
  forall i idx, Pandas.index df !! i = Some idx ->
    NoDup (Pandas.labels df) /\
    Viewer.data td !! i
    = Some (record_of (Pandas.boxed (filled_frame df)) i idx).
Proof.
  intros Hdf Hrun.
  destruct (prepare_inv _ _ _ _ Hrun) as (df' & Hdf' & Htable & _ & Hfill).
  rewrite Hdf in Hdf'. injection Hdf' as <-.
  split; [done|].
  destruct (table_of_inv _ _ Htable) as (cols & rows & _ & Hrows & Htd).
  split.
  { subst td. cbn [Viewer.data].
    rewrite (rows_loop_length _ _ _ _ Hrows). unfold Pandas.iterrows.
    by rewrite length_imap, filled_frame_index. }
  intros i idx Hi.
  assert (Hnd : NoDup (Pandas.labels df)).
  { rewrite <- filled_frame_labels. apply (table_of_labels _ td); [done|].
    rewrite filled_frame_index. intros Hnil. by rewrite Hnil in Hi. }
  split; [done|].
  unfold Pandas.iterrows in Hrows.
  rewrite <- (boxed_labels (filled_frame df)), filled_frame_index in Hrows.
  apply (rows_loop_returned _ _ id) in Hrows; [|by rewrite seen_labels].
  subst td rows. cbn [Viewer.data app]. unfold id.
  by rewrite list_lookup_imap, Hi.
Qed.

End LabelFacts.

(* ================================================================== *)
(** * Timestamps as text *)
(* ================================================================== *)

Module TimeFacts.
Import Py Notions.
Open Scope Z_scope.

Lemma string_app_assoc (a b c : string) : (a +:+ b) +:+ c = a +:+ (b +:+ c).
Proof.
  induction a as [|x a IH]; [done|].
  change (String x ((a +:+ b) +:+ c) = String x (a +:+ (b +:+ c))).
  by rewrite IH.
Qed.

Lemma string_app_nil_l (a : string) : "" +:+ a = a.
Proof. done. Qed.

Lemma string_app_cons x (a b : string) : String x a +:+ b = String x (a +:+ b).
Proof. done. Qed.

Lemma digit_value_digit n : digit_value (digit n) = Some (n mod 10).
Proof.
  unfold digit_value, digit.
  pose proof (Z.mod_pos_bound n 10 ltac:(lia)) as Hb.
  rewrite nat_ascii_embedding by lia.
  rewrite Z2Nat.id by lia.
  replace ((48 <=? 48 + n mod 10) && (48 + n mod 10 <=? 57))%Z with true.
  - f_equal. lia.
  - symmetry. apply andb_true_iff. split; apply Z.leb_le; lia.
Qed.

Lemma read_digits_fixed w : forall k acc m s,
  0 <= m < 10 ^ Z.of_nat w ->
  read_digits (w + k) acc (fixed_width w m +:+ s)
  = read_digits k (acc * 10 ^ Z.of_nat w + m) s.
Proof.
  induction w as [|w IH]; intros k acc m s Hm.
  - simpl in *. f_equal. lia.
  - rewrite Nat2Z.inj_succ, Z.pow_succ_r in Hm by lia.
    replace (S w + k)%nat with (w + S k)%nat by lia.
    cbn [fixed_width]. rewrite string_app_assoc, string_app_cons, string_app_nil_l.
    rewrite IH.
    2:{ split; [apply Z.div_pos; lia|apply Z.div_lt_upper_bound; lia]. }
    cbn [read_digits]. rewrite digit_value_digit.
    f_equal. rewrite Nat2Z.inj_succ, Z.pow_succ_r by lia.
    pose proof (Z.div_mod m 10 ltac:(lia)). lia.
Qed.

Lemma read_zfill w m s :
  0 <= m < 10 ^ Z.of_nat w ->
  read_digits w 0 (zfill w m +:+ s) = Some (m, s).
Proof.
  intros Hm. unfold zfill.
  replace ((0 <=? m) && (m <? 10 ^ Z.of_nat w)) with true.
  - replace w with (w + 0)%nat at 1 by lia.
    rewrite read_digits_fixed by done. simpl. repeat f_equal; lia.
  - symmetry. apply andb_true_iff. split; [apply Z.leb_le|apply Z.ltb_lt]; lia.
Qed.

Lemma strftime_seconds t :
  strftime "%Y-%m-%d %H:%M:%S" t
  = pretty (year t) +:+ "-" +:+ zfill 2 (month t) +:+ "-" +:+ zfill 2 (day t)
    +:+ " " +:+ zfill 2 (hour t) +:+ ":" +:+ zfill 2 (minute t) +:+ ":"
    +:+ zfill 2 (second t) +:+ "".
Proof. reflexivity. Qed.

(** A year of four digits is printed by its four digits. *)
Lemma pretty_four_digits y : 1000 <= y <= 9999 -> pretty y = zfill 4 y.
Proof.
  intros Hy.
  assert (Hall : forallb (fun k => bool_decide
                            (pretty (1000 + Z.of_nat k)
                             = zfill 4 (1000 + Z.of_nat k)))
                         (seq 0 (90 * 100)) = true)
    by (vm_compute; reflexivity).
  rewrite forallb_forall in Hall.
  assert (Hin : In (Z.to_nat (y - 1000)) (seq 0 (90 * 100)))
    by (apply in_seq; lia).
  apply Hall, bool_decide_eq_true in Hin.
  rewrite Z2Nat.id in Hin by lia.
  by replace (1000 + (y - 1000)) with y in Hin by lia.
Qed.

Lemma read_timestamp_strftime t :
  valid_datetime t -> 1000 <= year t ->
  read_timestamp (strftime "%Y-%m-%d %H:%M:%S" t) = Some (whole_seconds t).
Proof.
  intros (Hy & Hmo & Hd & Hh & Hmi & Hs & _) Hfour.
  rewrite strftime_seconds, pretty_four_digits by lia.
  unfold read_timestamp.
  do 5 (rewrite read_zfill by (simpl; lia); cbn [mbind option_bind];
        rewrite string_app_cons, string_app_nil_l; cbn [read_char];
        rewrite bool_decide_true by done; cbn [mbind option_bind]).
  rewrite read_zfill by (simpl; lia). cbn [mbind option_bind].
  by rewrite bool_decide_true.
Qed.

End TimeFacts.

(* ================================================================== *)
(** * The table data of a frame *)
(* ================================================================== *)

Module TableData.
Import Py Cacao Notions DictFacts LoopFacts LabelFacts TimeFacts Examples.

(** What the statements about single entries rest on: on a basic frame with
    distinct labels the call returns, and the record of row [i] is built
    from the columns of the filled frame as its rows hold them. *)
Lemma prepare_entries self w df :
  heap w !! Viewer.dataframe self = Some df ->
  basic df = true ->
  NoDup (Pandas.labels df) ->
  exists td w',
    Viewer._prepare_table_data self w = (Ok td, w') /\
    length (Viewer.data td) = length (Pandas.index df) /\
    forall i idx, Pandas.index df !! i = Some idx ->
      Viewer.data td !! i
        = Some (record_of (Pandas.boxed (filled_frame df)) i idx).
Proof.
  intros Hdf Hbasic Hnd.
  destruct (prepare_table_data_spec self w df Hdf Hbasic Hnd) as (h & _ & Hrun).
  eexists _, _. split; [exact Hrun|]. cbn [Viewer.data].
  split; [by rewrite length_imap|].
  intros i idx Hi. by rewrite list_lookup_imap, Hi.
Qed.

(** The record of a row holds "N/A" under the label of a null cell. *)
Lemma record_null df i idx j c :
  NoDup (Pandas.labels df) ->
  Pandas.index df !! i = Some idx ->
  Pandas.columns df !! j = Some c ->
  Pandas.checknull (Pandas.cells c i) = true ->
  getitem (record_of (Pandas.boxed (filled_frame df)) i idx) (Pandas.label c)
  = Some (PyStr "N/A").
Proof.
  intros Hnd Hi Hj Hnull.
  destruct (seen_column df j c Hj) as (c' & Hj' & Hlabel & Hfill & _).
  rewrite <- Hlabel, record_of_cell.
  - rewrite (Hfill i); [done| |done]. by eapply lookup_lt_Some.
  - by rewrite seen_labels.
  - apply list_elem_of_lookup. eauto.
Qed.

(** The record of a row holds a value under the label of every column. *)
Lemma record_has_label df i idx j c :
  NoDup (Pandas.labels df) ->
  Pandas.columns df !! j = Some c ->
  exists v,
    getitem (record_of (Pandas.boxed (filled_frame df)) i idx) (Pandas.label c)
    = Some v.
Proof.
  intros Hnd Hj.
  destruct (seen_column df j c Hj) as (c' & Hj' & Hlabel & _).
  rewrite <- Hlabel, record_of_cell; [eauto| |].
  - by rewrite seen_labels.
  - apply list_elem_of_lookup. eauto.
Qed.

(** What the conversion makes of a value that is not null. *)
Lemma shown_not_null v :
  Pandas.isna v = Pandas.Flag false ->
  (isinstance v [c_int; c_float] = true -> shown v = v) /\
  (isinstance v [c_int; c_float] = false ->
   isinstance v [c_datetime; c_Timestamp] = false ->
   shown v = PyStr (py_str v)) /\
  (forall t, v = PdTimestamp t \/ v = PyDatetime t ->
   shown v = PyStr (strftime "%Y-%m-%d %H:%M:%S" t)).
Proof.
  intros Hnull. unfold shown, Viewer.convert. rewrite Hnull.
  cbn [Pandas.truth]. run. split; [|split].
  - by intros ->.
  - by intros -> ->.
  - by intros t [-> | ->].
Qed.

(** The row [iterrows] yields at position [i] of the filled frame, and
    what item access on it returns. *)
Lemma row_of_filled df i idx row :
  Pandas.iterrows (filled_frame df) !! i = Some (idx, row) ->
  Pandas.index df !! i = Some idx /\
  row = (fun c => (Pandas.label c, Pandas.cells c i))
        <$> Pandas.boxed (filled_frame df).
Proof.
  unfold Pandas.iterrows. rewrite list_lookup_imap, filled_frame_index.
  destruct (Pandas.index df !! i) as [idx'|]; [|done].
  by intros [= <- <-].
Qed.

Lemma record_read df i idx row col v :
  NoDup (Pandas.labels df) ->
  Pandas.iterrows (filled_frame df) !! i = Some (idx, row) ->
  Pandas.Series_getitem row col = Ok (Pandas.Scalar v) ->
  getitem (record_of (Pandas.boxed (filled_frame df)) i idx) col
  = Some (shown v).
Proof.
  intros Hnd Hrow Hget.
  destruct (row_of_filled df i idx row Hrow) as [Hi ->].
  destruct (Series_getitem_scalar _ _ _ _ Hget) as (c & Hc & <- & <-).
  apply record_of_cell; [by rewrite seen_labels|done].
Qed.













End TableData.

(* ================================================================== *)
(** * Pages and the guard of [preview_dataframe] *)
(* ================================================================== *)

Module PageFacts.
Import Py Cacao Notions LoopFacts Examples.

(** ** A call on a page changes the heap only, and only by adding to it *)

Lemma prepare_sets_heap self w :
  exists h, keeps (heap w) h /\
            snd (Viewer._prepare_table_data self w) = set_heap h w.
Proof.
  destruct (heap w !! Viewer.dataframe self) as [df|] eqn:Hdf.
  - rewrite (prepare_unfold _ _ _ Hdf).
    destruct (Pandas.fillna _ _); eexists; (split; [|reflexivity]).
    + apply prepared_keeps.
    + apply copied_keeps.
  - rewrite prepare_missing by done.
    exists (heap w). split; [apply keeps_refl|]. by destruct w.
Qed.

Lemma set_heap_set_heap h1 h2 w : set_heap h2 (set_heap h1 w) = set_heap h2 w.
Proof. done. Qed.

Lemma set_heap_same w : set_heap (heap w) w = w.
Proof. by destruct w. Qed.

Lemma render_sets_heap E self w :
  (forall p, Viewer.plugin self = Some p -> read_only p) ->
  exists h, keeps (heap w) h /\ snd (Viewer.render E self w) = set_heap h w.
Proof.
  intros Hplugin. unfold Viewer.render.
  destruct (CACAO_COMPONENTS_AVAILABLE E).
  - destruct (Viewer.plugin self) as [p|] eqn:Hp.
    2:{ exists (heap w). split; [apply keeps_refl|]. simpl. by rewrite set_heap_same. }
    destruct (process p (Viewer.dataframe self) (heap w)) as [r h1] eqn:Hproc.
    destruct (Hplugin p eq_refl _ _ _ _ Hproc) as [Hkeep1 Hrender].
    destruct r as [tc|e]; simpl.
    2:{ by exists h1. }
    destruct (Viewer._create_toolbar self (set_heap h1 w)) as [toolbar|e]; simpl.
    2:{ by exists h1. }
    destruct (tc_render tc h1) as [r2 h2] eqn:Htc.
    pose proof (Hrender tc eq_refl _ _ _ Htc) as Hkeep2.
    exists h2. split; [by eapply keeps_trans|].
    by destruct r2.
  - destruct (prepare_sets_heap self w) as (h & Hkeep & Hsnd).
    destruct (Viewer._prepare_table_data self w) as [[td|e] w1];
      simpl in *; subst w1; by exists h.
Qed.

Lemma run_calls_keeps E self cs : forall w,
  (forall p, Viewer.plugin self = Some p -> read_only p) ->
  keeps (heap w) (heap (run_calls E self cs w)).
Proof.
  induction cs as [|c cs IH]; intros w Hplugin; simpl.
  - apply keeps_refl.
  - eapply keeps_trans; [|apply IH; done].
    destruct c; simpl.
    + destruct (render_sets_heap E self w Hplugin) as (h & Hkeep & ->). done.
    + destruct (prepare_sets_heap self w) as (h & Hkeep & ->). done.
Qed.

(** C10.  No sequence of calls to [render] and [_prepare_table_data] on a
    page changes the frame the page was given: after the calls the heap
    holds under the page's reference the frame it held before, with its
    cells (nulls included), rows and columns, and so does every other
    frame that existed; the filled frame is a new object.  Where the
    optional table plugin is installed, [render] hands it the reference,
    and the statement is for a plugin that does not write to it. *)
Theorem calls_keep_source_frame E self cs w df :
  (forall p, Viewer.plugin self = Some p -> read_only p) ->
  heap w !! Viewer.dataframe self = Some df ->
  heap (run_calls E self cs w) !! Viewer.dataframe self = Some df /\
  forall l other, heap w !! l = Some other ->
                  heap (run_calls E self cs w) !! l = Some other.
Proof.
  intros Hplugin Hdf.
  pose proof (run_calls_keeps E self cs w Hplugin) as Hkeep.
  split; [by apply Hkeep|exact Hkeep].
Qed.

(** After three calls the heap still holds [staff], whose second score is
    still null, while the table data shows "N/A" for it. *)
Lemma calls_keep_source_frame_witness :
  heap (run_calls plain (page "simple")
          [call_render; call_prepare_table_data; call_render]
          (holding staff)) !! 0%nat = Some staff /\
  exists td, fst (Viewer._prepare_table_data (page "simple") (holding staff))
             = Ok td /\
             (exists rec, Viewer.data td !! 1%nat = Some rec /\
                          getitem rec "Score" = Some (PyStr "N/A")) /\
  Pandas.checknull
    (Pandas.cells
       (column_of "Score" Pandas.float64
                  [NpFloat64 (fnum "4.5"); NpFloat64 nan])
       1) = true.
Proof.
  split.
  - refine (proj1 (calls_keep_source_frame plain (page "simple")
                      [call_render; call_prepare_table_data; call_render]
                      (holding staff) staff _ _)).
    + intros p Hp. discriminate Hp.
    + reflexivity.
  - eexists. split; [vm_compute; reflexivity|].
    split; [|reflexivity]. eexists. split; reflexivity.
Defined.

(** C9.  The constructor rejects whatever is not a frame with the
    ValueError "Input must be a pandas DataFrame" and builds no page; on a
    frame it returns the page: at once where the table components are
    not installed, and with the plugin as soon as the plugin's own
    constructor has returned one. *)
Theorem init_accepts_frames_only E title mode :
  (forall v,
     Viewer.__init__ E (Other v) title mode
     = Raise {| exc_type := ValueError;
                exc_str := "Input must be a pandas DataFrame" |}) /\
  (forall l,
     CACAO_COMPONENTS E = None ->
     Viewer.__init__ E (Frame l) title mode
     = Ok {| Viewer.dataframe := l; Viewer.title := title;
             Viewer.mode := mode; Viewer.plugin := None |}) /\
  (forall l C p,
     CACAO_COMPONENTS E = Some C ->
     PandasTablePlugin C (bool_decide (mode = "advanced")) 100 1 = Ok p ->
     Viewer.__init__ E (Frame l) title mode
     = Ok {| Viewer.dataframe := l; Viewer.title := title;
             Viewer.mode := mode; Viewer.plugin := Some p |}).
Proof.
  split; [done|]. split.
  - intros l HE. unfold Viewer.__init__. by rewrite HE.
  - intros l C p HE Hp. unfold Viewer.__init__. rewrite HE, Hp. done.
Qed.

(** A string is rejected; a frame is accepted, with and without the
    table components. *)
Lemma init_accepts_frames_only_witness :
  Viewer.__init__ plain (Other (PyStr "not a frame")) None "simple"
  = Raise {| exc_type := ValueError;
             exc_str := "Input must be a pandas DataFrame" |} /\
  Viewer.__init__ plain (Frame 0%nat) None "simple" = Ok (page "simple") /\
  Viewer.__init__ installed (Frame 0%nat) None "advanced"
  = Ok {| Viewer.dataframe := 0%nat; Viewer.title := None;
          Viewer.mode := "advanced"; Viewer.plugin := Some fixed_plugin |}.
Proof.
  split; [|split].
  - apply (proj1 (init_accepts_frames_only plain None "simple")).
  - apply (proj1 (proj2 (init_accepts_frames_only plain None "simple"))).
    reflexivity.
  - eapply (proj2 (proj2 (init_accepts_frames_only installed None "advanced")));
      reflexivity.
Defined.

End PageFacts.

Module GuardFacts.
Import Py Cacao Notions LoopFacts PageFacts Examples Probes.

Lemma render_heap_only E self : heap_only (Viewer.render E self).
Proof.
  intros w. unfold Viewer.render.
  destruct (CACAO_COMPONENTS_AVAILABLE E).
  - destruct (Viewer.plugin self) as [p|].
    2:{ exists (heap w). simpl. by rewrite set_heap_same. }
    destruct (process p (Viewer.dataframe self) (heap w)) as [[tc|e] h1]; simpl.
    2:{ by exists h1. }
    destruct (Viewer._create_toolbar self (set_heap h1 w)); simpl.
    2:{ by exists h1. }
    destruct (tc_render tc h1) as [[t|e] h2]; by exists h2.
  - destruct (prepare_sets_heap self w) as (h & _ & Hsnd).
    destruct (Viewer._prepare_table_data self w) as [[td|e] w1];
      simpl in *; subst w1; by exists h.
Qed.

(** While the flag is set a script runs to its end: each window it opens
    is the window of the call that runs it, each call it re-enters only
    prints the warning, and the flag stays set. *)
Lemma run_script_running E s home win : forall w,
  heap_only home ->
  viewer_running w = true ->
  exists w',
    Viewer.run_script E s home win w = (outcome s, w') /\
    viewer_running w' = true /\
    windows w' = (windows w ++ replicate (opens s) win)%list /\
    stdout w' = (stdout w ++ replicate (reenters s) Viewer.duplicate_warning)%list /\
    stderr w' = stderr w /\
    length (served w') = (length (served w) + requests s)%nat.
Proof.
  induction s as [|e|k IH|k IH|a f k IH]; intros w Hhome Hrun; simpl.
  - exists w. rewrite !app_nil_r. repeat split; [done..|lia].
  - exists w. rewrite !app_nil_r. repeat split; [done..|lia].
  - destruct (IH (open_window win w) Hhome Hrun)
      as (w' & Hk & Hflag & Hwin & Hout & Herr & Hserved).
    exists w'. split; [done|]. split; [done|].
    split; [|done]. rewrite Hwin. simpl. by rewrite <- app_assoc.
  - destruct (Hhome w) as [h Hh].
    destruct (home w) as [r w1]. simpl in Hh. subst w1.
    destruct (IH (serve r (set_heap h w)) Hhome Hrun)
      as (w' & Hk & Hflag & Hwin & Hout & Herr & Hserved).
    exists w'. repeat split; try done.
    rewrite Hserved. simpl. rewrite length_app. simpl. lia.
  - destruct f as [App_new mix brew].
    unfold Viewer.preview_dataframe_with. rewrite Hrun.
    destruct (IH (print Viewer.duplicate_warning w) Hhome Hrun)
      as (w' & Hk & Hflag & Hwin & Hout & Herr & Hserved).
    exists w'. repeat split; try done.
    rewrite Hout. simpl. by rewrite <- app_assoc.
Qed.

(** A call that finds the flag clear. *)
Lemma preview_first_call E f a w :
  viewer_running w = false ->
  exists r w',
    Viewer.preview_dataframe E f a w = (r, w') /\
    viewer_running w' = false /\
    (reaches_brew E f a = true -> r = outcome (brew_of f)) /\
    windows w' =
      (windows w ++
       replicate (if reaches_brew E f a then opens (brew_of f) else 0)
                 (window_of a))%list /\
    stdout w' =
      (stdout w ++
       replicate (if reaches_brew E f a then reenters (brew_of f) else 0)
                 Viewer.duplicate_warning)%list.
Proof.
  intros Hflag. destruct f as [App_new mix brew].
  unfold Viewer.preview_dataframe, Viewer.preview_dataframe_with.
  rewrite Hflag.
  unfold Viewer.preview_guarded, Viewer.preview_try, reaches_brew.
  cbn [brew_of].
  destruct (import_App E) as [e|].
  { eexists _, _. split; [reflexivity|]. simpl.
    rewrite !app_nil_r. by repeat split. }
  destruct App_new as [e|].
  { eexists _, _. split; [reflexivity|]. simpl.
    rewrite !app_nil_r. by repeat split. }
  destruct (Viewer.__init__ E (a_dataframe a) (a_title a) (a_mode a))
    as [viewer|e].
  2:{ eexists _, _. split; [reflexivity|]. simpl.
      rewrite !app_nil_r. by repeat split. }
  destruct mix as [e|].
  { eexists _, _. split; [reflexivity|]. simpl.
    rewrite !app_nil_r. by repeat split. }
  destruct (run_script_running E brew (Viewer.render E viewer) (window_of a)
              (set_running true w) (render_heap_only E viewer) eq_refl)
    as (w' & Hrun & Hset & Hwin & Hout & _ & _).
  fold (window_of a). rewrite Hrun. cbn beta iota. rewrite Hset.
  exists (outcome brew), (set_running false w').
  split; [reflexivity|].
  split; [done|]. split; [done|]. split; [exact Hwin|exact Hout].
Qed.



(** A host script writes nothing to the error stream, with a handler
    that writes nothing there, whatever it re-enters. *)
Lemma run_script_stderr E :
  forall s home win w,
    (forall w0, stderr (snd (home w0)) = stderr w0) ->
    stderr (snd (Viewer.run_script E s home win w)) = stderr w.
Proof.
  intros s.
  induction s as [|e|k IH|k IH|a f IHf k IHk|App_new mix brew IH]
    using script_hosts_ind
    with (P0 := fun f => forall a w,
                  stderr (snd (Viewer.preview_dataframe E f a w)) = stderr w).
  - done.
  - done.
  - intros home win w Hhome. simpl. rewrite IH by exact Hhome. reflexivity.
  - intros home win w Hhome. simpl.
    pose proof (Hhome w) as Hw. destruct (home w) as [r w1]. simpl in Hw.
    rewrite IH by exact Hhome. exact Hw.
  - intros home win w Hhome. simpl.
    specialize (IHf a w). destruct f as [n m b].
    unfold Viewer.preview_dataframe in IHf.
    destruct (Viewer.preview_dataframe_with E n m (Viewer.run_script E b) a w)
      as [[u|e] w1]; simpl in IHf.
    + rewrite IHk by exact Hhome. exact IHf.
    + exact IHf.
  - intros a w.
    unfold Viewer.preview_dataframe, Viewer.preview_dataframe_with.
    destruct (viewer_running w); [done|].
    unfold Viewer.preview_guarded, Viewer.preview_try.
    assert (Hend : forall r w1,
              stderr w1 = stderr w ->
              stderr (snd (let '(r0, w2) := (r, w1) : result unit * world in
                           (r0, if viewer_running w2
                                then set_running false w2 else w2)))
              = stderr w).
    { intros r w1 Hw1. simpl. by destruct (viewer_running w1). }
    destruct (import_App E); [by apply Hend|].
    destruct App_new; [by apply Hend|].
    destruct (Viewer.__init__ E (a_dataframe a) (a_title a) (a_mode a))
      as [viewer|]; [|by apply Hend].
    destruct mix; [by apply Hend|].
    match goal with
    | |- context [Viewer.run_script E brew ?home ?win ?w0] =>
        pose proof (IH home win w0) as Hrun;
        destruct (Viewer.run_script E brew home win w0) as [r w1]
    end.
    apply Hend. simpl in Hrun. apply Hrun.
    intros w0. destruct (render_heap_only E viewer w0) as [h ->]. done.
Qed.

End GuardFacts.

(* ================================================================== *)
(** * Loading files and the command line *)
(* ================================================================== *)

Module LoadFacts.
Import Py Cacao Notions Examples.

Lemma dispatch_unrecognized rd p ext kwargs :
  ext ∉ recognized ->
  Cli.dispatch rd p ext kwargs
  = Raise {| exc_type := ValueError;
             exc_str := "Unsupported file format: " +:+ ext |}.
Proof.
  intros Hext. unfold recognized in Hext. unfold Cli.dispatch.
  repeat (rewrite bool_decide_false
            by (intros Hin; apply Hext; apply list_elem_of_In;
                first [ subst ext | apply list_elem_of_In in Hin; simpl in Hin ];
                simpl; intuition auto)).
  done.
Qed.

(** C6.  A path whose extension (the suffix of its last component, in
    lower case) is none of the extensions the loader has a reader for
    makes [load_dataframe_from_file] raise, whatever the readers would
    do: the error says "Unsupported file format" with the extension, and
    no frame is returned.  The error that leaves the function is the
    [Exception] the handler of the [try] block wraps the [ValueError]
    in. *)
Theorem load_rejects_unrecognized_extension rd filepath kwargs :
  Cli.lower (Cli.suffix (Cli.Path filepath)) ∉ recognized ->
  Cli.load_dataframe_from_file rd filepath kwargs
  = Raise {| exc_type := Exception;
             exc_str := "Error loading file '"
                        +:+ Cli.path_str (Cli.Path filepath)
                        +:+ "': Unsupported file format: "
                        +:+ Cli.lower (Cli.suffix (Cli.Path filepath)) |}.
Proof.
  intros Hext. unfold Cli.load_dataframe_from_file.
  by rewrite dispatch_unrecognized.
Qed.

(** "data.xyz" is refused even by readers that would succeed. *)
Lemma load_rejects_unrecognized_extension_witness :
  Cli.load_dataframe_from_file (readers_of staff) "data.xyz" []
  = Raise {| exc_type := Exception;
             exc_str := "Error loading file 'data.xyz': Unsupported file format: .xyz" |}.
Proof.
  apply (load_rejects_unrecognized_extension (readers_of staff) "data.xyz" []).
  apply (bool_decide_unpack _). vm_compute. exact I.
Defined.

Lemma embeds_middle (a s b : string) : embeds s (a +:+ s +:+ b).
Proof. by exists a, b. Qed.

(** C7.  When the pandas reader that serves the file's extension raises
    an exception (an instance of [Exception], as every error of a reader
    is), [load_dataframe_from_file] raises an [Exception] in its place
    whose message is "Error loading file '<path>': <text of the
    error>", the path being the text of [Path(filepath)]. *)
Theorem load_wraps_reader_failure rd filepath kwargs e :
  reader_raises rd (Cli.Path filepath) kwargs e
                (Cli.lower (Cli.suffix (Cli.Path filepath))) ->
  is_Exception (exc_type e) = true ->
  Cli.load_dataframe_from_file rd filepath kwargs
  = Raise {| exc_type := Exception;
             exc_str := "Error loading file '"
                        +:+ Cli.path_str (Cli.Path filepath)
                        +:+ "': " +:+ exc_str e |} /\
  embeds (Cli.path_str (Cli.Path filepath))
         ("Error loading file '" +:+ Cli.path_str (Cli.Path filepath)
          +:+ "': " +:+ exc_str e).
Proof.
  intros Hreader Hexc. split; [|apply embeds_middle].
  unfold Cli.load_dataframe_from_file.
  assert (Hd : Cli.dispatch rd (Cli.Path filepath)
                 (Cli.lower (Cli.suffix (Cli.Path filepath))) kwargs = Raise e).
  { remember (Cli.lower (Cli.suffix (Cli.Path filepath))) as ext eqn:Hext.
    clear Hext.
    destruct Hreader as [Hr|ext Hin Hr|Hr|Hr|ext Hin Hsep Hr|ext Hin Hr].
    - by unfold Cli.dispatch; simpl.
    - unfold Cli.dispatch.
      apply elem_of_cons in Hin as [->|Hin];
        [|apply list_elem_of_singleton in Hin as ->]; by simpl.
    - by unfold Cli.dispatch; simpl.
    - by unfold Cli.dispatch; simpl.
    - unfold Cli.dispatch.
      apply elem_of_cons in Hin as [->|Hin];
        [|apply list_elem_of_singleton in Hin as ->]; simpl; by rewrite Hsep.
    - unfold Cli.dispatch.
      apply elem_of_cons in Hin as [->|Hin];
        [|apply list_elem_of_singleton in Hin as ->]; by simpl. }
  by rewrite Hd, Hexc.
Qed.

(** A missing file: the message carries the normalised path. *)
Lemma load_wraps_reader_failure_witness :
  Cli.load_dataframe_from_file failing_readers "./data//missing.csv" []
  = Raise {| exc_type := Exception;
             exc_str := "Error loading file 'data/missing.csv': [Errno 2] No such file or directory: 'data/missing.csv'" |}.
Proof.
  refine (proj1 (load_wraps_reader_failure failing_readers
                   "./data//missing.csv" [] file_not_found _ _)).
  - apply csv_raises. reflexivity.
  - reflexivity.
Defined.

End LoadFacts.

Module MainFacts.
Import Py Cacao Notions LoopFacts PageFacts GuardFacts Examples.

(** The tree [render] builds itself carries the data list of
    [_prepare_table_data]. *)
Lemma render_plain E self w df :
  CACAO_COMPONENTS E = None ->
  heap w !! Viewer.dataframe self = Some df ->
  basic df = true ->
  NoDup (Pandas.labels df) ->
  exists tree h,
    Viewer.render E self w = (Ok tree, set_heap h w) /\
    keeps (heap w) h /\
    table_rows tree
    = Some (imap (fun i idx =>
                    record_of (Pandas.boxed (filled_frame df)) i idx)
                 (Pandas.index df)).
Proof.
  intros HE Hdf Hbasic Hnd.
  destruct (prepare_table_data_spec self w df Hdf Hbasic Hnd)
    as (h & Hkeep & Hrun).
  unfold Viewer.render, CACAO_COMPONENTS_AVAILABLE. rewrite HE, Hrun.
  unfold Viewer._create_toolbar, deref. cbn [heap set_heap].
  rewrite (Hkeep _ _ Hdf).
  unfold Viewer._create_table_component, Viewer._create_advanced_table.
  rewrite HE.
  destruct (bool_decide (Viewer.mode self = "simple"));
    eexists _, h; (split; [reflexivity|]); split; done.
Qed.

(** A script that re-enters nothing, run with a handler that keeps an
    invariant of the heap and whose results all satisfy [P]. *)
Lemma run_script_serves E s home win (I : world -> Prop)
    (P : result element -> Prop) :
  reenters s = 0%nat ->
  (forall w, I w -> I (open_window win w)) ->
  (forall w, I w ->
     exists r w1, home w = (r, w1) /\ P r /\ I (serve r w1) /\
       stderr w1 = stderr w /\ served w1 = served w) ->
  forall w, I w ->
  exists w' pages,
    Viewer.run_script E s home win w = (outcome s, w') /\
    stderr w' = stderr w /\
    served w' = (served w ++ pages)%list /\
    length pages = requests s /\
    Forall P pages.
Proof.
  intros Hre Hopen Hhome.
  induction s as [|e|k IH|k IH|a f k IH]; intros w Hw; simpl in *.
  - exists w, []. rewrite app_nil_r. by repeat split.
  - exists w, []. rewrite app_nil_r. by repeat split.
  - destruct (IH Hre (open_window win w) (Hopen w Hw))
      as (w' & pages & Hrun & Herr & Hserved & Hlen & Hall).
    by exists w', pages.
  - destruct (Hhome w Hw) as (r & w1 & Hh & HP & HI & Herr1 & Hserved1).
    rewrite Hh.
    destruct (IH Hre (serve r w1) HI)
      as (w' & pages & Hrun & Herr & Hserved & Hlen & Hall).
    exists w', (r :: pages). split; [done|]. split.
    { by rewrite Herr. }
    split.
    { rewrite Hserved. simpl. rewrite Hserved1. by rewrite <- app_assoc. }
    split; [simpl; by rewrite Hlen|by constructor].
  - discriminate Hre.
Qed.

(** What [main] does once the frame is loaded, whatever the host. *)
Lemma main_stderr_after_load E rd sample_df f args w df :
  fst (Cli.main_load rd sample_df args w) = Ok df ->
  stderr (snd (Cli.main_load rd sample_df args w)) = stderr w ->
  stderr (snd (Cli.main E rd sample_df f args w))
  = (stderr w ++ if Pandas.is_empty df
                 then ["Warning: DataFrame is empty"] else [])%list.
Proof.
  intros Hload Herr. unfold Cli.main.
  destruct (Cli.main_load rd sample_df args w) as [r w1].
  simpl in Hload, Herr. subst r.
  unfold alloc. cbn beta iota zeta.
  set (w3 := if Pandas.is_empty df then _ else _).
  assert (Hw3 : stderr w3
                = (stderr w ++ if Pandas.is_empty df
                               then ["Warning: DataFrame is empty"]
                               else [])%list).
  { subst w3. destruct (Pandas.is_empty df); simpl.
    - by rewrite Herr.
    - by rewrite app_nil_r. }
  destruct f as [App_new mix brew].
  destruct App_new; [done|].
  destruct (Viewer.__init__ E _ _ _) as [viewer|]; [|done].
  destruct mix; [done|].
  rewrite run_script_stderr; [done|].
  intros w0. destruct (render_heap_only E viewer w0) as [h ->]. done.
Qed.




End MainFacts.

(* ================================================================== *)
(** * More on the table data *)
(* ================================================================== *)

Module TableDataMore.
Import Py Cacao Notions DictFacts LoopFacts LabelFacts Examples Probes.



(** ** What a record can hold *)

Lemma convert_clean value x : Viewer.convert value = Ok x -> clean x = true.
Proof.
  destruct value as [v|s]; [|done]. unfold Viewer.convert.
  destruct (Pandas.truth (Pandas.isna v)) as [[]|] eqn:Hnull; run;
    [by intros [= <-]| |done].
  destruct (isinstance v [c_int; c_float]) eqn:Hnum.
  - intros [= <-].
    destruct v; try discriminate Hnum;
      try match goal with f : pyfloat |- _ => destruct f end;
      try discriminate Hnull; reflexivity.
  - destruct (isinstance v [c_datetime; c_Timestamp]).
    + destruct (Pandas.method_strftime v _); run; [|done]. by intros [= <-].
    + by intros [= <-].
Qed.

Lemma row_loop_clean row cols : forall d d',
  Viewer.row_loop row cols d = Ok d' -> clean_record d -> clean_record d'.
Proof.
  induction cols as [|col cols IH]; intros d d'; simpl.
  - by intros [= <-].
  - destruct (Pandas.Series_getitem row col) as [value|]; [|done]. run.
    destruct (Viewer.convert value) as [x|] eqn:Hx; [|done]. run.
    intros Hrest Hd. apply (IH _ _ Hrest).
    intros k v. destruct (decide (col = k)) as [<-|Hne].
    + rewrite getitem_setitem_eq. intros [= <-]. by eapply convert_clean.
    + rewrite getitem_setitem_ne by done. apply Hd.
Qed.

Lemma rows_loop_clean rows cols : forall acc data,
  Viewer.rows_loop rows cols acc = Ok data ->
  Forall clean_record acc -> Forall clean_record data.
Proof.
  induction rows as [|[idx row] rows IH]; intros acc data; simpl.
  - by intros [= <-].
  - destruct (Viewer.row_loop _ _ _) as [row_data|] eqn:Hrow; [|done]. run.
    intros Hrest Hacc. apply (IH _ _ Hrest), Forall_app. split; [done|].
    constructor; [|constructor].
    apply (row_loop_clean _ _ _ _ Hrow).
    intros k v. simpl. destruct (decide ("_index" = k)); [|done].
    by intros [= <-].
Qed.

(** X2.  No display record holds a null, a datetime object or a numpy
    integer: every value of every record that [_prepare_table_data]
    returns, the row index included, is a string or an instance of [int]
    or [float] that is not null. *)
Theorem prepare_records_are_clean self w td w' :
  Viewer._prepare_table_data self w = (Ok td, w') ->
  forall rec k v,
    rec ∈ Viewer.data td -> getitem rec k = Some v -> clean v = true.
Proof.
  intros Hrun rec k v Hrec Hget.
  destruct (prepare_inv _ _ _ _ Hrun) as (df & _ & Htable & _).
  destruct (table_of_inv _ _ Htable) as (cols & rows & _ & Hrows & ->).
  cbn [Viewer.data] in Hrec.
  pose proof (rows_loop_clean _ _ _ _ Hrows (Forall_nil_2 _)) as Hclean.
  rewrite Forall_forall in Hclean. by apply (Hclean rec Hrec k v).
Qed.

(** On [staff], whose cells include a missing score and a timestamp. *)
Lemma prepare_records_are_clean_witness :
  exists td,
    fst (Viewer._prepare_table_data (page "simple") (holding staff)) = Ok td /\
    forall rec k v,
      rec ∈ Viewer.data td -> getitem rec k = Some v -> clean v = true.
Proof.
  destruct (Viewer._prepare_table_data (page "simple") (holding staff))
    as [[td|e] w'] eqn:Hrun.
  - exists td. split; [reflexivity|].
    exact (prepare_records_are_clean (page "simple") (holding staff) td w' Hrun).
  - vm_compute in Hrun. discriminate Hrun.
Defined.



(** ** The rows handed to cacao's [Table] *)

Lemma map_fmap {A B} (f : A -> B) (l : list A) : map f l = f <$> l.
Proof. induction l as [|a l IH]; csimpl; [done|]. by rewrite <- IH. Qed.



End TableDataMore.

(* ================================================================== *)
(** * More on rendering *)
(* ================================================================== *)

Module RenderMore.
Import Py Cacao Notions DictFacts LoopFacts PageFacts Examples Probes.

(** Where the table components are not installed, [render] goes through
    [_prepare_table_data]. *)
Lemma render_unfold E self w :
  CACAO_COMPONENTS E = None ->
  Viewer.render E self w
  = match Viewer._prepare_table_data self w with
    | (Raise e, w1) => (Raise e, w1)
    | (Ok table_data, w1) =>
        (toolbar ← Viewer._create_toolbar self w1;
         table ← Viewer._create_table_component E self table_data;
         Ok (Viewer.layout toolbar table),
         w1)
    end.
Proof.
  intros HE. unfold Viewer.render, CACAO_COMPONENTS_AVAILABLE. by rewrite HE.
Qed.

(** X5.  Where the table components are not installed, [render] is
    [_prepare_table_data] wrapped in the layout: when the latter raises,
    [render] raises the same error; when it returns, [render] returns a
    tree whose table carries that data list and those column
    descriptors, with the id "pandasTable" for the mode "simple" and
    "pandasAdvancedTable" for every other mode, and whose toolbar shows
    the row and column counts of the table data. *)
Theorem render_wraps_table_data E self w :
  CACAO_COMPONENTS E = None ->
  match Viewer._prepare_table_data self w with
  | (Raise e, w1) => Viewer.render E self w = (Raise e, w1)
  | (Ok td, w1) =>
      exists tree,
        Viewer.render E self w = (Ok tree, w1) /\
        table_rows tree = Some (Viewer.data td) /\
        table_columns tree = Some (Viewer.columns td) /\
        table_id tree
        = Some (if bool_decide (Viewer.mode self = "simple")
                then "pandasTable" else "pandasAdvancedTable") /\
        toolbar_text tree
        = Some ("Rows: " +:+ pretty (fst (Viewer.shape td))
                +:+ " | Columns: " +:+ pretty (snd (Viewer.shape td)))
  end.
Proof.
  intros HE. rewrite (render_unfold E self w HE).
  destruct (Viewer._prepare_table_data self w) as [[td|e] w1] eqn:Hrun;
    [|done].
  destruct (prepare_inv _ _ _ _ Hrun) as (df & Hdf & Htable & -> & _).
  unfold Viewer._create_toolbar, deref. cbn [heap set_heap].
  rewrite (prepared_keeps df (heap w) _ _ Hdf).
  assert (Hshape : Viewer.shape td = Pandas.shape df).
  { destruct (table_of_inv _ _ Htable) as (cols & rows & _ & _ & ->).
    cbn [Viewer.shape]. apply filled_frame_shape. }
  rewrite Hshape.
  unfold Viewer._create_table_component, Viewer._create_advanced_table.
  rewrite HE.
  destruct (bool_decide (Viewer.mode self = "simple"));
    eexists; (split; [reflexivity|]); by repeat split.
Qed.

Lemma render_wraps_table_data_witness :
  exists tree w1,
    Viewer.render plain (page "grid") (holding staff) = (Ok tree, w1) /\
    table_id tree = Some "pandasAdvancedTable" /\
    toolbar_text tree = Some "Rows: 2 | Columns: 5" /\
    exists rows, table_rows tree = Some rows /\ length rows = 2%nat.
Proof.
  pose proof (render_wraps_table_data plain (page "grid") (holding staff)
                eq_refl) as Hwrap.
  destruct (Viewer._prepare_table_data (page "grid") (holding staff))
    as [[td|e] w1] eqn:Hrun.
  - destruct Hwrap as (tree & Hrender & Hrows & _ & Hid & Htext).
    exists tree, w1. split; [exact Hrender|]. split; [exact Hid|].
    vm_compute in Hrun. injection Hrun as <- _.
    split; [exact Htext|]. eexists. split; [exact Hrows|reflexivity].
  - vm_compute in Hrun. discriminate Hrun.
Defined.

(** ** Rendering again *)

Lemma prepare_lookup self w :
  heap (snd (Viewer._prepare_table_data self w)) !! Viewer.dataframe self
  = heap w !! Viewer.dataframe self.
Proof.
  destruct (heap w !! Viewer.dataframe self) as [df|] eqn:Hdf.
  - destruct (prepare_sets_heap self w) as (h & Hkeep & ->).
    simpl. by apply Hkeep.
  - by rewrite prepare_missing.
Qed.

Lemma render_world_plain E self w :
  CACAO_COMPONENTS E = None ->
  snd (Viewer.render E self w) = snd (Viewer._prepare_table_data self w).
Proof.
  intros HE. rewrite (render_unfold E self w HE).
  by destruct (Viewer._prepare_table_data self w) as [[td|e] w1].
Qed.

Lemma run_calls_lookup_plain E self cs : forall w,
  CACAO_COMPONENTS E = None ->
  heap (run_calls E self cs w) !! Viewer.dataframe self
  = heap w !! Viewer.dataframe self.
Proof.
  induction cs as [|c cs IH]; intros w HE; simpl; [done|].
  rewrite IH by done. destruct c; simpl.
  - rewrite render_world_plain by done. apply prepare_lookup.
  - apply prepare_lookup.
Qed.

Lemma render_value_by_frame E self w1 w2 :
  CACAO_COMPONENTS E = None ->
  heap w1 !! Viewer.dataframe self = heap w2 !! Viewer.dataframe self ->
  fst (Viewer.render E self w1) = fst (Viewer.render E self w2).
Proof.
  intros HE Hsame. rewrite !render_unfold by done.
  destruct (heap w1 !! Viewer.dataframe self) as [df|] eqn:Hdf.
  - rewrite (prepare_unfold self w1 df Hdf).
    rewrite (prepare_unfold self w2 df) by (by rewrite <- Hsame).
    destruct (Pandas.fillna _ _); [|done].
    destruct (Viewer.table_of (filled_frame df)) as [td|e]; [|done].
    unfold Viewer._create_toolbar, deref. cbn [fst snd heap set_heap].
    rewrite (prepared_keeps df (heap w1) _ _ Hdf).
    rewrite (prepared_keeps df (heap w2) _ df); [done|].
    by rewrite <- Hsame.
  - unfold Viewer._prepare_table_data, deref. by rewrite <- Hsame, Hdf.
Qed.

(** X6.  Where the table components are not installed, [render] returns
    the same tree (or raises the same error) however many times the page
    has been rendered or prepared before: the objects those calls
    allocate do not change what the next one builds. *)
Theorem render_is_repeatable E self cs w :
  CACAO_COMPONENTS E = None ->
  fst (Viewer.render E self (run_calls E self cs w))
  = fst (Viewer.render E self w).
Proof.
  intros HE. apply render_value_by_frame; [done|].
  by apply run_calls_lookup_plain.
Qed.

Lemma render_is_repeatable_witness :
  fst (Viewer.render plain (page "simple")
         (run_calls plain (page "simple")
            [call_render; call_prepare_table_data; call_render]
            (holding staff)))
  = fst (Viewer.render plain (page "simple") (holding staff)).
Proof.
  exact (render_is_repeatable plain (page "simple")
           [call_render; call_prepare_table_data; call_render]
           (holding staff) eq_refl).
Defined.

(** ** What [render] does not consult *)

(** X7.  [render] never uses cacao's [Table] component: replacing it by
    any other leaves the result and the final state of [render] as they
    were.  With the table components installed [render] does not look at
    the page's mode either; the mode then only reaches the plugin, once,
    in the constructor. *)
Theorem render_ignores_Table_and_mode E T self w :
  Viewer.render (replace_Table E T) self w = Viewer.render E self w /\
  (forall C m, CACAO_COMPONENTS E = Some C ->
     Viewer.render E (set_mode m self) w = Viewer.render E self w).
Proof.
  split.
  - unfold Viewer.render, CACAO_COMPONENTS_AVAILABLE, replace_Table.
    cbn [CACAO_COMPONENTS].
    destruct (CACAO_COMPONENTS E) as [C|] eqn:HE; [done|].
    destruct (Viewer._prepare_table_data self w) as [[td|e] w1]; [|done].
    unfold Viewer._create_table_component, Viewer._create_advanced_table.
    cbn [CACAO_COMPONENTS]. by rewrite HE.
  - intros C m HE.
    unfold Viewer.render, CACAO_COMPONENTS_AVAILABLE. by rewrite HE.
Qed.

Lemma render_ignores_Table_and_mode_witness :
  Viewer.render installed
    (set_mode "simple"
       {| Viewer.dataframe := 0%nat; Viewer.title := None;
          Viewer.mode := "advanced"; Viewer.plugin := Some fixed_plugin |})
    (holding staff)
  = Viewer.render installed
      {| Viewer.dataframe := 0%nat; Viewer.title := None;
         Viewer.mode := "advanced"; Viewer.plugin := Some fixed_plugin |}
      (holding staff).
Proof.
  eapply (proj2 (render_ignores_Table_and_mode installed
                   (fun _ _ _ => Ok (Text "other")) _ (holding staff))).
  reflexivity.
Defined.

End RenderMore.

(** * More on the entry points *)

Module EntryMore.
Import Py Cacao Notions DictFacts LoopFacts PageFacts GuardFacts Examples Probes.

Lemma set_running_back w :
  viewer_running w = false -> set_running false (set_running true w) = w.
Proof. destruct w; simpl; by intros ->. Qed.

(** X8.  [preview_dataframe] on something that is not a frame fails and
    leaves the process exactly as it found it: no window, nothing
    printed, the flag clear again.  The error is the constructor's
    ValueError as soon as [from cacao import App] and [App()] succeed;
    otherwise it is theirs. *)
Theorem preview_rejects_non_frame E f a w v :
  viewer_running w = false ->
  a_dataframe a = Other v ->
  exists e,
    Viewer.preview_dataframe E f a w = (Raise e, w) /\
    (import_App E = None -> App_failure f = None ->
     e = {| exc_type := ValueError;
            exc_str := "Input must be a pandas DataFrame" |}).
Proof.
  intros Hflag Hother. destruct f as [App_new mix brew].
  unfold Viewer.preview_dataframe, Viewer.preview_dataframe_with.
  rewrite Hflag.
  unfold Viewer.preview_guarded, Viewer.preview_try.
  rewrite Hother. cbn [Viewer.__init__ App_failure].
  destruct (import_App E) as [e|].
  { exists e. cbn. rewrite set_running_back by done. by split. }
  destruct App_new as [e|].
  { exists e. cbn. rewrite set_running_back by done. by split. }
  eexists. cbn. rewrite set_running_back by done. by split.
Qed.

Lemma preview_rejects_non_frame_witness :
  Viewer.preview_dataframe plain quiet_host
    {| a_dataframe := Other (PyStr "not a frame"); a_title := None;
       a_width := 1000; a_height := 700; a_mode := "advanced" |}
    (holding staff)
  = (Raise {| exc_type := ValueError;
              exc_str := "Input must be a pandas DataFrame" |},
     holding staff).
Proof.
  destruct (preview_rejects_non_frame plain quiet_host
              {| a_dataframe := Other (PyStr "not a frame"); a_title := None;
                 a_width := 1000; a_height := 700; a_mode := "advanced" |}
              (holding staff) (PyStr "not a frame") eq_refl eq_refl)
    as (e & Hrun & He).
  rewrite Hrun, (He eq_refl eq_refl). reflexivity.
Defined.

(** ** Loading *)

Lemma dispatch_reader_raises rd p ext kwargs e :
  reader_raises rd p kwargs e ext -> Cli.dispatch rd p ext kwargs = Raise e.
Proof.
  intros Hreader.
  destruct Hreader as [Hr|ext Hin Hr|Hr|Hr|ext Hin Hsep Hr|ext Hin Hr];
    unfold Cli.dispatch.
  - by simpl.
  - apply elem_of_cons in Hin as [->|Hin];
      [|apply list_elem_of_singleton in Hin as ->]; by simpl.
  - by simpl.
  - by simpl.
  - apply elem_of_cons in Hin as [->|Hin];
      [|apply list_elem_of_singleton in Hin as ->]; simpl; by rewrite Hsep.
  - apply elem_of_cons in Hin as [->|Hin];
      [|apply list_elem_of_singleton in Hin as ->]; by simpl.
Qed.

Lemma dispatch_reader_returns rd p ext kwargs df :
  reader_returns rd p kwargs df ext -> Cli.dispatch rd p ext kwargs = Ok df.
Proof.
  intros Hreader.
  destruct Hreader as [Hr|ext Hin Hr|Hr|Hr|ext Hin Hsep Hr|ext Hin Hr];
    unfold Cli.dispatch.
  - by simpl.
  - apply elem_of_cons in Hin as [->|Hin];
      [|apply list_elem_of_singleton in Hin as ->]; by simpl.
  - by simpl.
  - by simpl.
  - apply elem_of_cons in Hin as [->|Hin];
      [|apply list_elem_of_singleton in Hin as ->]; simpl; by rewrite Hsep.
  - apply elem_of_cons in Hin as [->|Hin];
      [|apply list_elem_of_singleton in Hin as ->]; by simpl.
Qed.

(** X9.  [load_dataframe_from_file] returns the frame its reader
    returns: the reader is chosen by the extension in lower case
    ([read_csv] for .csv, [read_excel] for .xlsx and .xls, [read_json],
    [read_parquet], [read_csv] with a tab separator for .tsv and .tab,
    [read_pickle] for .pkl and .pickle), it is given the parsed path and
    the caller's keyword arguments, and its frame comes back unchanged. *)
Theorem load_returns_reader_frame rd filepath kwargs df :
  reader_returns rd (Cli.Path filepath) kwargs df
                 (Cli.lower (Cli.suffix (Cli.Path filepath))) ->
  Cli.load_dataframe_from_file rd filepath kwargs = Ok df.
Proof.
  intros Hreader. unfold Cli.load_dataframe_from_file.
  by rewrite (dispatch_reader_returns _ _ _ _ _ Hreader).
Qed.

(** An upper-case extension is served by the same reader. *)
Lemma load_returns_reader_frame_witness :
  Cli.load_dataframe_from_file (readers_of staff) "reports/Staff.XLSX" []
  = Ok staff.
Proof.
  apply (load_returns_reader_frame (readers_of staff) "reports/Staff.XLSX" []).
  apply excel_returns; [|reflexivity].
  apply (bool_decide_unpack _). vm_compute. exact I.
Defined.

(** X10.  An exception of a reader that is not an instance of
    [Exception] (a KeyboardInterrupt, a SystemExit) is not caught by the
    loader: it leaves [load_dataframe_from_file] as it was raised, without
    the "Error loading file" message. *)
Theorem load_passes_interrupts_through rd filepath kwargs e :
  reader_raises rd (Cli.Path filepath) kwargs e
                (Cli.lower (Cli.suffix (Cli.Path filepath))) ->
  is_Exception (exc_type e) = false ->
  Cli.load_dataframe_from_file rd filepath kwargs = Raise e.
Proof.
  intros Hreader Hbase. unfold Cli.load_dataframe_from_file.
  by rewrite (dispatch_reader_raises _ _ _ _ _ Hreader), Hbase.
Qed.

Lemma load_passes_interrupts_through_witness :
  Cli.load_dataframe_from_file interrupted_readers "data.csv" []
  = Raise interrupted.
Proof.
  apply (load_passes_interrupts_through interrupted_readers "data.csv" []).
  - apply csv_raises. reflexivity.
  - reflexivity.
Defined.

(** ** The command line *)

(** X11.  Without [--sample] and without a data file (none given, or an
    empty name) [main] prints its two lines of usage on the error stream
    and exits with status 1: the [SystemExit] raised inside the [try]
    block is not taken for a load error, no reader is called, no window
    is opened and nothing else changes. *)
Theorem main_without_input_exits E rd sample_df f args w :
  Cli.sample args = false ->
  Cli.truthy (Cli.data_file args) = false ->
  Cli.main E rd sample_df f args w
  = (Raise Cli.exit_1,
     print_err "Use --help for usage information."
       (print_err "Error: No data file specified and --sample not used." w)).
Proof.
  intros Hsample Hfile. unfold Cli.main, Cli.main_load.
  by rewrite Hsample, Hfile.
Qed.

Lemma main_without_input_exits_witness :
  exists w',
    Cli.main plain failing_readers staff quiet_host
      {| Cli.data_file := None; Cli.title := "Pandas DataFrame Viewer";
         Cli.width := 1000; Cli.height := 700; Cli.mode := "advanced";
         Cli.sample := false; Cli.delimiter := ","; Cli.encoding := "utf-8";
         Cli.header := 0; Cli.sheet := None |}
      start = (Raise Cli.exit_1, w') /\
    stderr w' = ["Error: No data file specified and --sample not used.";
                 "Use --help for usage information."] /\
    windows w' = [].
Proof.
  eexists. split.
  - apply main_without_input_exits; reflexivity.
  - split; reflexivity.
Defined.

(** X12.  When loading the file fails, [main] opens nothing: an error
    that is an instance of [Exception] is reported on the error stream as
    "Error loading data: <message>" and the program exits with status 1;
    any other exception (an interrupt) leaves [main] as it was raised,
    with nothing printed. *)
Theorem main_reports_load_failure E rd sample_df f args w file e :
  Cli.sample args = false ->
  Cli.data_file args = Some file ->
  file <> "" ->
  Cli.load_dataframe_from_file rd file (Cli.load_kwargs args file) = Raise e ->
  Cli.main E rd sample_df f args w
  = if is_Exception (exc_type e)
    then (Raise Cli.exit_1, print_err ("Error loading data: " +:+ exc_str e) w)
    else (Raise e, w).
Proof.
  intros Hsample Hfile Hne Hload. unfold Cli.main, Cli.main_load.
  rewrite Hsample, Hfile. cbn [Cli.truthy default].
  rewrite bool_decide_false by done. cbn [negb]. unfold id.
  rewrite Hload. cbn beta iota.
  by destruct (is_Exception (exc_type e)).
Qed.

(** [cacao-pandas-ui data.xyz]. *)
Lemma main_reports_load_failure_witness :
  exists w',
    Cli.main plain (readers_of staff) staff quiet_host
      {| Cli.data_file := Some "data.xyz";
         Cli.title := "Pandas DataFrame Viewer";
         Cli.width := 1000; Cli.height := 700; Cli.mode := "advanced";
         Cli.sample := false; Cli.delimiter := ","; Cli.encoding := "utf-8";
         Cli.header := 0; Cli.sheet := None |}
      start = (Raise Cli.exit_1, w') /\
    stderr w' = ["Error loading data: Error loading file 'data.xyz': Unsupported file format: .xyz"] /\
    windows w' = [].
Proof.
  eexists. split.
  - erewrite main_reports_load_failure; [ | reflexivity | reflexivity
                                         | discriminate | reflexivity ].
    reflexivity.
  - split; reflexivity.
Defined.

(** X13.  With [--sample] the readers are not consulted: whatever data
    file is named besides and whatever the readers would do, [main]
    behaves the same. *)
Theorem main_sample_ignores_files E rd rd' sample_df f args args' w :
  Cli.sample args = true ->
  Cli.sample args' = true ->
  Cli.title args' = Cli.title args ->
  Cli.width args' = Cli.width args ->
  Cli.height args' = Cli.height args ->
  Cli.mode args' = Cli.mode args ->
  Cli.main E rd' sample_df f args' w = Cli.main E rd sample_df f args w.
Proof.
  intros Hs Hs' Ht Hw Hh Hm. unfold Cli.main, Cli.main_load.
  by rewrite Hs, Hs', Ht, Hw, Hh, Hm.
Qed.

Lemma main_sample_ignores_files_witness :
  Cli.main plain failing_readers staff serving_host
    {| Cli.data_file := Some "missing.csv";
       Cli.title := "Pandas DataFrame Viewer";
       Cli.width := 1000; Cli.height := 700; Cli.mode := "advanced";
       Cli.sample := true; Cli.delimiter := ";"; Cli.encoding := "latin-1";
       Cli.header := 3; Cli.sheet := Some "Data" |}
    start
  = Cli.main plain (readers_of no_rows) staff serving_host
      {| Cli.data_file := None;
         Cli.title := "Pandas DataFrame Viewer";
         Cli.width := 1000; Cli.height := 700; Cli.mode := "advanced";
         Cli.sample := true; Cli.delimiter := ","; Cli.encoding := "utf-8";
         Cli.header := 0; Cli.sheet := None |}
      start.
Proof.
  apply main_sample_ignores_files; reflexivity.
Defined.

Lemma main_load_ok_stderr rd sample_df args w df w1 :
  Cli.main_load rd sample_df args w = (Ok df, w1) -> stderr w1 = stderr w.
Proof.
  unfold Cli.main_load.
  destruct (Cli.sample args).
  { by intros [= _ <-]. }
  destruct (Cli.truthy (Cli.data_file args)).
  2:{ cbn. discriminate. }
  destruct (Cli.load_dataframe_from_file _ _ _) as [d|e].
  { by intros [= _ <-]. }
  cbn beta iota. destruct (is_Exception (exc_type e)); discriminate.
Qed.

(** X14.  Once the frame is loaded, what [main] adds to the error stream
    is the warning "Warning: DataFrame is empty" when the frame has no
    rows or no columns, and nothing otherwise -- whatever the host then
    does, with or without the table components, and whether rendering
    succeeds or not. *)
Theorem main_warns_exactly_when_empty E rd sample_df f args w df :
  fst (Cli.main_load rd sample_df args w) = Ok df ->
  stderr (snd (Cli.main E rd sample_df f args w))
  = (stderr w ++ if Pandas.is_empty df
                 then ["Warning: DataFrame is empty"] else [])%list.
Proof.
  intros Hload. unfold Cli.main.
  destruct (Cli.main_load rd sample_df args w) as [r w1] eqn:Hml.
  simpl in Hload. subst r.
  pose proof (main_load_ok_stderr _ _ _ _ _ _ Hml) as Herr.
  unfold alloc. cbn beta iota zeta.
  set (w3 := if Pandas.is_empty df then _ else _).
  assert (Hw3 : stderr w3
                = (stderr w ++ if Pandas.is_empty df
                               then ["Warning: DataFrame is empty"]
                               else [])%list).
  { subst w3. destruct (Pandas.is_empty df); simpl.
    - by rewrite Herr.
    - by rewrite app_nil_r. }
  destruct f as [App_new mix brew].
  destruct App_new; [done|].
  destruct (Viewer.__init__ E _ _ _) as [viewer|]; [|done].
  destruct mix; [done|].
  rewrite run_script_stderr; [done|].
  intros w0. destruct (render_heap_only E viewer w0) as [h ->]. done.
Qed.

(** Two rows and no column: the frame counts as empty. *)
Lemma main_warns_exactly_when_empty_witness :
  stderr (snd (Cli.main plain (readers_of no_columns) staff reloading_host
                 view_empty_csv start))
  = ["Warning: DataFrame is empty"] /\
  stderr (snd (Cli.main plain (readers_of staff) staff reloading_host
                 view_empty_csv start))
  = [].
Proof.
  split.
  - apply (main_warns_exactly_when_empty plain (readers_of no_columns) staff
             reloading_host view_empty_csv start no_columns). reflexivity.
  - apply (main_warns_exactly_when_empty plain (readers_of staff) staff
             reloading_host view_empty_csv start staff). reflexivity.
Defined.

End EntryMore.

(** * What the entry points leave in place, and what they serve *)

Module FrameMore.
Import Py Cacao Notions DictFacts LoopFacts PageFacts GuardFacts Examples Probes.

Lemma grows_refl E w : grows E w w.
Proof. unfold grows. repeat split; try done. intros _. apply keeps_refl. Qed.

Lemma grows_trans E w1 w2 w3 : grows E w1 w2 -> grows E w2 w3 -> grows E w1 w3.
Proof.
  intros (Ho & He & Hw & Hs & Hk) (Ho' & He' & Hw' & Hs' & Hk').
  unfold grows. repeat split; try (etrans; eassumption).
  intros HE. eapply keeps_trans; [by apply Hk|by apply Hk'].
Qed.

Lemma grows_print E line w : grows E w (print line w).
Proof.
  unfold grows; simpl. repeat split; try done.
  - by apply prefix_app_r.
  - intros _. apply keeps_refl.
Qed.

Lemma grows_print_err E line w : grows E w (print_err line w).
Proof.
  unfold grows; simpl. repeat split; try done.
  - by apply prefix_app_r.
  - intros _. apply keeps_refl.
Qed.

Lemma grows_open_window E win w : grows E w (open_window win w).
Proof.
  unfold grows; simpl. repeat split; try done.
  - by apply prefix_app_r.
  - intros _. apply keeps_refl.
Qed.

Lemma grows_serve E r w : grows E w (serve r w).
Proof.
  unfold grows; simpl. repeat split; try done.
  - by apply prefix_app_r.
  - intros _. apply keeps_refl.
Qed.

Lemma grows_set_running E b w : grows E w (set_running b w).
Proof.
  unfold grows; simpl. repeat split; try done. intros _. apply keeps_refl.
Qed.

Lemma grows_set_heap E h w :
  (CACAO_COMPONENTS E = None -> keeps (heap w) h) -> grows E w (set_heap h w).
Proof. intros Hk. unfold grows; simpl. by repeat split. Qed.

(** A page built by the constructor renders without taking anything
    back. *)
Lemma render_grows E d t m viewer w :
  Viewer.__init__ E d t m = Ok viewer ->
  viewer_running (snd (Viewer.render E viewer w)) = viewer_running w /\
  grows E w (snd (Viewer.render E viewer w)).
Proof.
  intros Hinit.
  destruct (render_heap_only E viewer w) as [h Hh].
  split; [by rewrite Hh|].
  rewrite Hh. apply grows_set_heap. intros HE.
  assert (Hplugin : Viewer.plugin viewer = None).
  { unfold Viewer.__init__ in Hinit. destruct d as [l|v]; [|done].
    rewrite HE in Hinit. by injection Hinit as <-. }
  destruct (render_sets_heap E viewer w) as (h' & Hkeep & Hh').
  { intros p Hp. by rewrite Hplugin in Hp. }
  rewrite Hh in Hh'. by injection Hh' as [= ->].
Qed.

Lemma run_script_grows E :
  forall s home win w,
    (forall w0, viewer_running (snd (home w0)) = viewer_running w0 /\
                grows E w0 (snd (home w0))) ->
    viewer_running (snd (Viewer.run_script E s home win w)) = viewer_running w /\
    grows E w (snd (Viewer.run_script E s home win w)).
Proof.
  intros s.
  induction s as [|e|k IH|k IH|a f IHf k IHk|App_new mix brew IH]
    using script_hosts_ind
    with (P0 := fun f => forall a w,
      viewer_running (snd (Viewer.preview_dataframe E f a w))
      = viewer_running w /\
      grows E w (snd (Viewer.preview_dataframe E f a w))).
  - intros home win w _. split; [done|apply grows_refl].
  - intros home win w _. split; [done|apply grows_refl].
  - intros home win w Hhome. simpl.
    destruct (IH home win (open_window win w) Hhome) as [Hflag Hgrow].
    split; [done|].
    eapply grows_trans; [apply grows_open_window|exact Hgrow].
  - intros home win w Hhome. simpl.
    destruct (Hhome w) as [Hflag0 Hgrow0].
    destruct (home w) as [r w1]. simpl in Hflag0, Hgrow0.
    destruct (IH home win (serve r w1) Hhome) as [Hflag Hgrow].
    split; [by rewrite Hflag|].
    eapply grows_trans; [exact Hgrow0|].
    eapply grows_trans; [apply grows_serve|exact Hgrow].
  - intros home win w Hhome. simpl.
    destruct (IHf a w) as [Hflag0 Hgrow0]. destruct f as [n m b].
    unfold Viewer.preview_dataframe in Hflag0, Hgrow0.
    destruct (Viewer.preview_dataframe_with E n m (Viewer.run_script E b) a w)
      as [[u|e] w1]; simpl in Hflag0, Hgrow0.
    + destruct (IHk home win w1 Hhome) as [Hflag Hgrow].
      split; [by rewrite Hflag|]. by eapply grows_trans.
    + done.
  - intros a w.
    unfold Viewer.preview_dataframe, Viewer.preview_dataframe_with.
    destruct (viewer_running w) eqn:Hrunning.
    { split; [done|apply grows_print]. }
    unfold Viewer.preview_guarded, Viewer.preview_try.
    assert (Hend : forall r w1,
              viewer_running w1 = true ->
              grows E (set_running true w) w1 ->
              let w' := snd (let '(r0, w2) := (r, w1) : result unit * world in
                             (r0, if viewer_running w2
                                  then set_running false w2 else w2)) in
              viewer_running w' = false /\ grows E w w').
    { intros r w1 Hflag Hgrow. simpl. rewrite Hflag. split; [done|].
      eapply grows_trans; [apply (grows_set_running E true)|].
      eapply grows_trans; [exact Hgrow|apply grows_set_running]. }
    destruct (import_App E); [by apply Hend; [|apply grows_refl]|].
    destruct App_new; [by apply Hend; [|apply grows_refl]|].
    destruct (Viewer.__init__ E (a_dataframe a) (a_title a) (a_mode a))
      as [viewer|] eqn:Hinit; [|by apply Hend; [|apply grows_refl]].
    destruct mix; [by apply Hend; [|apply grows_refl]|].
    match goal with
    | |- context [Viewer.run_script E brew ?home ?win ?w0] =>
        destruct (IH home win w0) as [Hflag Hgrow];
          [intros w0'; by eapply render_grows|];
        destruct (Viewer.run_script E brew home win w0) as [r w1]
    end.
    simpl in Hflag, Hgrow. by apply Hend.
Qed.

(** X15.  [preview_dataframe] takes nothing back, whatever the host
    does during [app.brew], calls it re-enters included: the flag is at
    the end as the call found it, what was printed, the windows that
    were open and the pages that were served are still there, in front
    of what the call added, nothing at all is written to the error
    stream (the duplicate warning goes to the standard output), and
    where the table components are not installed every frame of the heap
    is as it was. *)
Theorem preview_takes_nothing_back E f a w :
  viewer_running (snd (Viewer.preview_dataframe E f a w)) = viewer_running w /\
  stderr (snd (Viewer.preview_dataframe E f a w)) = stderr w /\
  grows E w (snd (Viewer.preview_dataframe E f a w)).
Proof.
  assert (Hhost : forall f a w,
            viewer_running (snd (Viewer.preview_dataframe E f a w))
            = viewer_running w /\
            grows E w (snd (Viewer.preview_dataframe E f a w))).
  { clear. intros [App_new mix brew] a w.
    pose proof (run_script_grows E (Reenter a (Framework App_new mix brew) Return)
                  (fun w0 => (Ok (Text ""), w0))
                  {| w_type := ""; w_title := ""; w_width := 0; w_height := 0;
                     w_resizable := true; w_fullscreen := false |} w) as H.
    simpl in H. unfold Viewer.preview_dataframe.
    destruct (Viewer.preview_dataframe_with E App_new mix
                (Viewer.run_script E brew) a w) as [[[]|e] w1];
      simpl in *; apply H; intros w0; (split; [done|apply grows_refl]). }
  assert (Herr : forall f a w,
            stderr (snd (Viewer.preview_dataframe E f a w)) = stderr w).
  { clear. intros [App_new mix brew] a w.
    pose proof (run_script_stderr E
                  (Reenter a (Framework App_new mix brew) Return)
                  (fun w0 => (Ok (Text ""), w0))
                  {| w_type := ""; w_title := ""; w_width := 0; w_height := 0;
                     w_resizable := true; w_fullscreen := false |} w) as H.
    simpl in H. unfold Viewer.preview_dataframe.
    destruct (Viewer.preview_dataframe_with E App_new mix
                (Viewer.run_script E brew) a w) as [[[]|e] w1];
      simpl in *; by apply H. }
  destruct (Hhost f a w) as [Hflag Hgrow].
  split; [done|]. split; [apply Herr|done].
Qed.

Lemma main_load_ok_print rd sample_df args w df w1 :
  Cli.main_load rd sample_df args w = (Ok df, w1) ->
  exists line, w1 = print line w.
Proof.
  unfold Cli.main_load.
  destruct (Cli.sample args).
  { intros [= _ <-]. by eexists. }
  destruct (Cli.truthy (Cli.data_file args)).
  2:{ cbn. discriminate. }
  destruct (Cli.load_dataframe_from_file _ _ _) as [d|e].
  { intros [= _ <-]. by eexists. }
  cbn beta iota. destruct (is_Exception (exc_type e)); discriminate.
Qed.

Lemma main_load_grows E rd sample_df args w :
  viewer_running (snd (Cli.main_load rd sample_df args w)) = viewer_running w /\
  heap (snd (Cli.main_load rd sample_df args w)) = heap w /\
  grows E w (snd (Cli.main_load rd sample_df args w)).
Proof.
  unfold Cli.main_load.
  destruct (Cli.sample args).
  { split; [done|]. split; [done|]. apply grows_print. }
  destruct (Cli.truthy (Cli.data_file args)).
  - destruct (Cli.load_dataframe_from_file _ _ _) as [d|e].
    { split; [done|]. split; [done|]. apply grows_print. }
    cbn beta iota. destruct (is_Exception (exc_type e)).
    + split; [done|]. split; [done|]. apply grows_print_err.
    + split; [done|]. split; [done|]. apply grows_refl.
  - cbn [is_Exception exc_type Cli.exit_1 snd].
    split; [done|]. split; [done|].
    eapply grows_trans; apply grows_print_err.
Qed.

(** X16.  [main] takes nothing back either, on any of its paths and
    whatever the host does: the flag of [preview_dataframe] is at the end
    as it was at the start ([main] never sets it), the lines printed, the
    windows and the pages served are still there in front of what was
    added, and where the table components are not installed every frame
    that was in the heap is as it was. *)
Theorem main_takes_nothing_back E rd sample_df f args w :
  viewer_running (snd (Cli.main E rd sample_df f args w)) = viewer_running w /\
  grows E w (snd (Cli.main E rd sample_df f args w)).
Proof.
  unfold Cli.main.
  destruct (main_load_grows E rd sample_df args w) as (Hflag & Hheap & Hgrow).
  destruct (Cli.main_load rd sample_df args w) as [[loaded|e] w1];
    simpl in Hflag, Hheap, Hgrow; [|done].
  unfold alloc. cbn beta iota zeta.
  set (w2 := set_heap _ w1).
  assert (H2 : viewer_running w2 = viewer_running w /\ grows E w w2).
  { split; [done|]. eapply grows_trans; [exact Hgrow|].
    apply grows_set_heap. intros _. apply alloc_keeps. }
  set (w3 := if Pandas.is_empty loaded then _ else _).
  assert (H3 : viewer_running w3 = viewer_running w /\ grows E w w3).
  { subst w3. destruct (Pandas.is_empty loaded); [|done].
    destruct H2 as [Hf Hg]. split; [done|].
    eapply grows_trans; [exact Hg|apply grows_print_err]. }
  destruct H3 as [Hflag3 Hgrow3].
  destruct f as [App_new mix brew].
  destruct App_new; [done|].
  destruct (Viewer.__init__ E _ _ _) as [viewer|] eqn:Hinit; [|done].
  destruct mix; [done|].
  match goal with
  | |- context [Viewer.run_script E brew ?home ?win ?w0] =>
      destruct (run_script_grows E brew home win w0) as [Hf Hg];
        [intros w0'; by eapply render_grows|]
  end.
  split; [by rewrite Hf|]. by eapply grows_trans.
Qed.

(** ** What the host is served *)

(** A script run under the guard, with a handler that keeps an invariant
    and whose results all satisfy [P]: the calls it re-enters do not
    disturb the pages. *)
Lemma run_script_serves_guarded E s home win (I : world -> Prop)
    (P : result element -> Prop) :
  (forall w, I w -> viewer_running w = true) ->
  (forall w, I w -> I (open_window win w)) ->
  (forall w, I w -> I (print Viewer.duplicate_warning w)) ->
  (forall w, I w ->
     exists r w1, home w = (r, w1) /\ P r /\ I (serve r w1) /\
       served w1 = served w) ->
  forall w, I w ->
  exists w' pages,
    Viewer.run_script E s home win w = (outcome s, w') /\
    viewer_running w' = true /\
    served w' = (served w ++ pages)%list /\
    length pages = requests s /\
    Forall P pages.
Proof.
  intros Hflag Hopen Hprint Hhome.
  induction s as [|e|k IH|k IH|a f k IH]; intros w Hw; simpl in *.
  - exists w, []. rewrite app_nil_r. repeat split; auto.
  - exists w, []. rewrite app_nil_r. repeat split; auto.
  - destruct (IH (open_window win w) (Hopen w Hw))
      as (w' & pages & Hrun & Hf & Hserved & Hlen & Hall).
    by exists w', pages.
  - destruct (Hhome w Hw) as (r & w1 & Hh & HP & HI & Hserved1).
    rewrite Hh.
    destruct (IH (serve r w1) HI)
      as (w' & pages & Hrun & Hf & Hserved & Hlen & Hall).
    exists w', (r :: pages). split; [done|]. split; [done|].
    split.
    { rewrite Hserved. simpl. rewrite Hserved1. by rewrite <- app_assoc. }
    split; [simpl; by rewrite Hlen|by constructor].
  - destruct f as [App_new mix brew].
    unfold Viewer.preview_dataframe_with. rewrite (Hflag w Hw).
    destruct (IH (print Viewer.duplicate_warning w) (Hprint w Hw))
      as (w' & pages & Hrun & Hf & Hserved & Hlen & Hall).
    by exists w', pages.
Qed.

(** On a basic frame with distinct labels [render] returns a page of the
    frame. *)
Lemma records_show df :
  NoDup (Pandas.labels df) ->
  shows df (imap (fun i idx =>
                    record_of (Pandas.boxed (filled_frame df)) i idx)
                 (Pandas.index df)).
Proof.
  intros Hnd. split; [by rewrite length_imap|].
  intros i idx Hi. eexists. split; [by rewrite list_lookup_imap, Hi|].
  intros j c Hj.
  destruct (TableData.record_has_label df i idx j c Hnd Hj) as [v Hv].
  exists v. split; [done|]. intros Hnull.
  rewrite (TableData.record_null df i idx j c Hnd Hi Hj Hnull) in Hv.
  by injection Hv as <-.
Qed.

Lemma render_page E self w df :
  CACAO_COMPONENTS E = None ->
  heap w !! Viewer.dataframe self = Some df ->
  basic df = true ->
  NoDup (Pandas.labels df) ->
  exists r h,
    Viewer.render E self w = (r, set_heap h w) /\
    keeps (heap w) h /\ page_of df r.
Proof.
  intros HE Hdf Hbasic Hnd.
  destruct (MainFacts.render_plain E self w df HE Hdf Hbasic Hnd)
    as (tree & h & Hrender & Hkeep & Htree).
  exists (Ok tree), h. split; [done|]. split; [done|].
  exists tree. eexists. split; [done|]. split; [exact Htree|].
  by apply records_show.
Qed.





(** ** The two factories *)

(** X19.  [create_simple_table] and [create_advanced_table] build, from
    the same frame, pages that differ in the mode only.  Where the table
    components are not installed, rendering the two either fails with
    the same error or gives two trees with the same records, the same
    column descriptors and the same toolbar counter; the table of the
    first has the id "pandasTable", that of the second
    "pandasAdvancedTable"; and the state of the process after either is
    the same. *)
Theorem table_factories_agree E l t w :
  CACAO_COMPONENTS E = None ->
  exists ps pa,
    Viewer.create_simple_table E (Frame l) t = Ok ps /\
    Viewer.create_advanced_table E (Frame l) t = Ok pa /\
    snd (Viewer.render E ps w) = snd (Viewer.render E pa w) /\
    match fst (Viewer.render E ps w), fst (Viewer.render E pa w) with
    | Ok ts, Ok ta =>
        table_rows ts = table_rows ta /\
        table_columns ts = table_columns ta /\
        toolbar_text ts = toolbar_text ta /\
        table_id ts = Some "pandasTable" /\
        table_id ta = Some "pandasAdvancedTable"
    | Raise es, Raise ea => es = ea
    | _, _ => False
    end.
Proof.
  intros HE.
  unfold Viewer.create_simple_table, Viewer.create_advanced_table,
    Viewer.__init__.
  rewrite HE. eexists _, _. split; [reflexivity|]. split; [reflexivity|].
  unfold Viewer.render, CACAO_COMPONENTS_AVAILABLE. rewrite HE.
  unfold Viewer._prepare_table_data. cbn [Viewer.dataframe].
  destruct (deref (heap w) l) as [df|e]; [|done].
  unfold alloc. cbn beta iota zeta.
  destruct (Pandas.fillna _ _) as [fdf|e]; [|done].
  destruct (Viewer.table_of _) as [td|e]; [|done].
  unfold Viewer._create_toolbar. cbn [Viewer.dataframe].
  destruct (deref _ l) as [df'|e]; [|done].
  unfold Viewer._create_table_component, Viewer._create_advanced_table.
  rewrite HE. cbn [Viewer.mode].
  rewrite bool_decide_true by done. rewrite bool_decide_false by done.
  by repeat split.
Qed.

Lemma table_factories_agree_witness :
  exists ps pa,
    Viewer.create_simple_table plain (Frame 0%nat) None = Ok ps /\
    Viewer.create_advanced_table plain (Frame 0%nat) None = Ok pa /\
    snd (Viewer.render plain ps (holding staff))
    = snd (Viewer.render plain pa (holding staff)) /\
    match fst (Viewer.render plain ps (holding staff)),
          fst (Viewer.render plain pa (holding staff)) with
    | Ok ts, Ok ta =>
        table_rows ts = table_rows ta /\
        table_columns ts = table_columns ta /\
        toolbar_text ts = toolbar_text ta /\
        table_id ts = Some "pandasTable" /\
        table_id ta = Some "pandasAdvancedTable"
    | Raise es, Raise ea => es = ea
    | _, _ => False
    end.
Proof.
  apply (table_factories_agree plain 0%nat None (holding staff)). reflexivity.
Defined.

End FrameMore.
